(** * ADB monitoring workflow: change detection and the run loop

    A shallow embedding of [adb-workflow.py] (and of the parts of
    [adb_scraper.py] it calls), with the properties of the change detector,
    of the lookup of the previous snapshot, of one monitoring run and of the
    schedule loop.

    - Pure code ([compare_with_previous], the string handling of file names)
      is a function; code that can raise returns a [result].
    - [run_job] and what it calls are computations over a [World]: the
      configuration file, the files, the calls made to the notifier, the
      mail handed over for delivery, and the open browser sessions.
    - What the outside decides during a run (the clock, the answers of the
      website, which system calls fail) is an [Env].
    - pandas is a library: a frame is its columns and rows, and what
      [to_csv] writes and [read_csv] reads back is left open ([Csv]).
    - Logging is left out. *)

From Stdlib Require Import String Ascii List DecimalString.
From stdpp Require Import gmap strings list fin_maps.

Local Open Scope string_scope.

(** ** Exceptions

    The workflow only ever catches [Exception] and prints [str(e)], so an
    exception is its class and its message. *)

Inductive exn : Type :=
  | KeyError (key : string)          (* df['Title'] on a frame without that column *)
  | OSError (msg : string)           (* file system: listdir, makedirs *)
  | LibraryError (msg : string).     (* pandas parser, selenium, smtplib *)

Definition str_of_exn (e : exn) : string :=
  match e with
  | KeyError key => "'" ++ key ++ "'"
  | OSError msg => msg
  | LibraryError msg => msg
  end.

Inductive result (A : Type) : Type :=
  | Ok (a : A)
  | Raise (e : exn).
Arguments Ok {A} a.
Arguments Raise {A} e.

#[global] Instance result_ret : MRet result := @Ok.
#[global] Instance result_bind : MBind result := fun A B f m =>
  match m with
  | Ok a => f a
  | Raise e => Raise e
  end.

(** [try: m except Exception: h] for a computation without side effects. *)
Definition try_except {A : Type} (m : result A) (h : exn -> A) : A :=
  match m with
  | Ok a => a
  | Raise e => h e
  end.

(** ** pandas data frames

    A record is a mapping from field names to values; a frame is its list of
    column labels and its rows in order.  A cell a row lacks is pandas' NaN,
    here [None]; like [isin], the model lets a missing cell match a missing
    cell. *)

Definition Row : Type := gmap string string.

Record DataFrame : Type := mkDataFrame {
  columns : list string;
  rows : list Row
}.

(** [pd.DataFrame()] *)
Definition pd_DataFrame : DataFrame := mkDataFrame [] [].

(** [df.empty]: some axis has length zero. *)
Definition df_empty (df : DataFrame) : bool :=
  match columns df, rows df with
  | [], _ => true
  | _, [] => true
  | _, _ => false
  end.

(** [len(df)] *)
Definition len (df : DataFrame) : nat := length (rows df).

(** [df[col].values]: raises [KeyError] when the frame has no such column. *)
Definition getitem (df : DataFrame) (col : string) : result (list (option string)) :=
  if decide (col ∈ columns df) then Ok ((fun r : Row => r !! col) <$> rows df)
  else Raise (KeyError col).

(** [df[df[col].isin(ids)]]: the rows whose cell is in [ids], columns and
    order kept. *)
Definition select_isin (df : DataFrame) (col : string) (ids : gset (option string)) : DataFrame :=
  mkDataFrame (columns df) (filter (fun r : Row => r !! col ∈ ids) (rows df)).

(** The serialised form of a frame is left to pandas: [to_csv] produces the
    content of a file, [read_csv] parses one or raises. *)
Class Csv (FileData : Type) : Type := {
  read_csv : FileData -> result DataFrame;
  to_csv : DataFrame -> FileData
}.

(** ** Python strings

    [str] methods used on file names.  Strings are compared character by
    character, as Python compares code points. *)

Definition nl : string := String (ascii_of_nat 10) "".

(** [s.startswith(p)] *)
Definition startswith (s p : string) : bool := String.prefix p s.

(** [s.endswith(suffix)] *)
Definition endswith (s suffix : string) : bool :=
  String.prefix (String.rev suffix) (String.rev s).

(** [a > b] on strings *)
Definition str_gt (a b : string) : bool := String.ltb b a.

(** [s.replace(old, new)] scans from the left and replaces every
    non-overlapping occurrence; [skip] counts the characters of an occurrence
    still to be passed over. *)
Fixpoint replace_from (old new : string) (skip : nat) (s : string) : string :=
  match s with
  | EmptyString => EmptyString
  | String c s' =>
      match skip with
      | S k => replace_from old new k s'
      | O =>
          if String.prefix old s
          then new ++ replace_from old new (String.length old - 1) s'
          else String c (replace_from old new 0 s')
      end
  end.

(** With an empty [old], Python inserts [new] around every character. *)
Fixpoint replace_between (new s : string) : string :=
  match s with
  | EmptyString => EmptyString
  | String c s' => String c (new ++ replace_between new s')
  end.

Definition replace (s old new : string) : string :=
  match old with
  | EmptyString => new ++ replace_between new s
  | String _ _ => replace_from old new 0 s
  end.

(** [sep.join(l)] *)
Definition join (sep : string) (l : list string) : string := String.concat sep l.

(** [str(n)] and [f"{n}"] for a length *)
Definition str_of_nat (n : nat) : string :=
  DecimalString.NilEmpty.string_of_uint (Nat.to_uint n).

(** [os.path.basename(p)]: what follows the last slash. *)
Fixpoint basename_from (acc p : string) : string :=
  match p with
  | EmptyString => String.rev acc
  | String c p' =>
      if Ascii.eqb c "/" then basename_from EmptyString p'
      else basename_from (String c acc) p'
  end.

Definition os_path_basename (p : string) : string := basename_from EmptyString p.

(** [os.path.join(a, b)] (posixpath) *)
Definition os_path_join (a b : string) : string :=
  if startswith b "/" then b
  else if String.eqb a "" || endswith a "/" then a ++ b
  else a ++ "/" ++ b.

(** ** Lookup of the previous snapshot

    The loop of [run_job] over [os.listdir(output_dir)], the same for both
    categories: [prefix] is [f"tenders_{filter_name}_"] or
    [f"projects_{filter_name}_"], [current] is
    [os.path.basename(output_file)]. *)

Definition file_timestamp (prefix file : string) : string :=
  replace (replace file prefix "") ".csv" "".

Definition is_candidate (prefix current file : string) : bool :=
  startswith file prefix && endswith file ".csv" && negb (String.eqb file current).

Definition resolve_step (prefix current : string) (previous_file : option string)
    (file : string) : option string :=
  if is_candidate prefix current file then
    match previous_file with
    | None => Some file
    | Some p =>
        if str_gt (file_timestamp prefix file) (file_timestamp prefix p)
        then Some file
        else previous_file
    end
  else previous_file.

Definition resolve_previous (prefix current : string) (listing : list string) : option string :=
  fold_left (resolve_step prefix current) listing None.

(** ** Configuration ([config.json])

    Keys read with [.get(key, default)] whose default is not the empty value
    are optional fields. *)

Record EmailConfig : Type := mkEmailConfig {
  enabled : bool;
  smtp_server : string;
  smtp_port : nat;
  sender_email : string;
  sender_password : string;
  recipients : list string
}.

Record FilterSpec : Type := mkFilterSpec {
  name : option string;
  country : option string;
  status : option string;
  sector : option string
}.

Record ScheduleConfig : Type := mkScheduleConfig {
  frequency : option string;
  time : option string
}.

Record Config : Type := mkConfig {
  email : EmailConfig;
  tenders : list FilterSpec;
  projects : list FilterSpec;
  schedule : ScheduleConfig;
  output_dir : option string
}.

(** The configuration [load_config] falls back to. *)
Definition default_config : Config :=
  {| email := {| enabled := false;
                 smtp_server := "smtp.gmail.com";
                 smtp_port := 587;
                 sender_email := "your-email@gmail.com";
                 sender_password := "your-app-password";
                 recipients := ["recipient@example.com"] |};
     tenders := [ {| name := Some "india_water_tenders";
                     country := Some "India";
                     status := Some "Active";
                     sector := Some "Water and other urban infrastructure and services" |} ];
     projects := [ {| name := Some "india_transport_projects";
                      country := Some "India";
                      status := Some "Proposed";
                      sector := Some "Transport" |} ];
     schedule := {| frequency := Some "daily"; time := Some "09:00" |};
     output_dir := Some "output" |}.

(** [config.json] as the process finds it. *)
Inductive ConfigFile : Type :=
  | Missing
  | Unparsable
  | Parsed (config : Config).

Inductive Category : Type := Tenders | Projects.

Definition category_name (cat : Category) : string :=
  match cat with
  | Tenders => "tenders"
  | Projects => "projects"
  end.

(** The prefix of the file names of a lineage, [f"tenders_{filter_name}_"]
    or [f"projects_{filter_name}_"], and the name under which the lineage
    stores the snapshot taken at [ts]. *)
Definition lineage_prefix (cat : Category) (filter_name : string) : string :=
  category_name cat ++ "_" ++ filter_name ++ "_".

Definition snapshot_name (cat : Category) (filter_name ts : string) : string :=
  lineage_prefix cat filter_name ++ ts ++ ".csv".

(** The [filters] dictionary handed to the scraper. *)
Record Filters : Type := mkFilters {
  f_country : option string;
  f_status : option string;
  f_sector : option string
}.

(** ** Notifications *)

(** One call of [send_email_notification]. *)
Record Notification : Type := mkNotification {
  subject : string;
  body : string;
  attachments : option (list string)
}.

Definition update_subject : string := "ADB Monitoring Update - New Items Found".
Definition error_subject : string := "ADB Monitoring Error".
Definition error_body (e : exn) : string :=
  "An error occurred while running the ADB monitoring job:" ++ nl ++ nl ++ str_of_exn e.

Section Workflow.
Context {FileData : Type} `{!Csv FileData}.

(** ** The change detector *)

(** [os.path.exists(path)] on a file system given by path. *)
Definition os_path_exists (fs : gmap string FileData) (path : string) : bool :=
  bool_decide (is_Some (fs !! path)).

(** The body of the [try] of [compare_with_previous]. *)
Definition compare_body (fs : gmap string FileData) (current_df : DataFrame)
    (previous_file : string) : result DataFrame :=
  if os_path_exists fs previous_file then
    previous_df ← match fs !! previous_file with
                  | Some data => read_csv data
                  | None => Raise (OSError previous_file)
                  end;
    current_titles ← getitem current_df "Title";
    previous_titles ← getitem previous_df "Title";
    let current_ids : gset (option string) := list_to_set current_titles in
    let previous_ids : gset (option string) := list_to_set previous_titles in
    let new_ids := current_ids ∖ previous_ids in
    let new_items := select_isin current_df "Title" new_ids in
    mret new_items
  else
    mret current_df.

(** [compare_with_previous(current_df, previous_file)] *)
Definition compare_with_previous (fs : gmap string FileData) (current_df : DataFrame)
    (previous_file : string) : DataFrame :=
  try_except (compare_body fs current_df previous_file) (fun _ => pd_DataFrame).

(** ** The world of the process

    What a run reads and changes: [config.json]; the files, by the path the
    code builds for them; the calls of [send_email_notification], in order;
    the messages handed to the mail server; and the number of browser
    sessions that are open. *)

Record Email : Type := mkEmail {
  msg_from : string;
  msg_to : string;
  msg_subject : string;
  msg_body : string;
  msg_parts : list (string * FileData)
}.

Record World : Type := mkWorld {
  config_file : ConfigFile;
  fs : gmap string FileData;
  notifier_calls : list Notification;
  outbox : list Email;
  sessions : nat
}.

(** What the outside answers during one run: the clock, the website behind
    the scraper ([site] is the outcome of the [try] block of
    [search_tenders] or [search_projects]), and the failures of the file
    system, the browser and the mail server. *)
Record Env : Type := mkEnv {
  now : string;
  makedirs_error : option exn;
  webdriver_error : option exn;
  site : Category -> Filters -> result DataFrame;
  to_csv_error : string -> option exn;
  os_listdir : gmap string FileData -> string -> result (list string);
  smtp_error : option exn
}.

Definition set_config_file (c : ConfigFile) (w : World) : World :=
  mkWorld c (fs w) (notifier_calls w) (outbox w) (sessions w).

Definition set_fs (fs' : gmap string FileData) (w : World) : World :=
  mkWorld (config_file w) fs' (notifier_calls w) (outbox w) (sessions w).

Definition add_call (n : Notification) (w : World) : World :=
  mkWorld (config_file w) (fs w) (notifier_calls w ++ [n])%list (outbox w) (sessions w).

Definition add_mail (m : Email) (w : World) : World :=
  mkWorld (config_file w) (fs w) (notifier_calls w) (outbox w ++ [m])%list (sessions w).

Definition set_sessions (n : nat) (w : World) : World :=
  mkWorld (config_file w) (fs w) (notifier_calls w) (outbox w) n.

(** Computations of a run: they change the world and return or raise. *)
Definition M (A : Type) : Type := World -> result A * World.

#[global] Instance M_ret : MRet M := fun A a w => (Ok a, w).
#[global] Instance M_bind : MBind M := fun A B f m w =>
  match m w with
  | (Ok a, w') => f a w'
  | (Raise e, w') => (Raise e, w')
  end.

(** [try: m except Exception as e: h e] *)
Definition try_except_M {A : Type} (m : M A) (h : exn -> M A) : M A := fun w =>
  match m w with
  | (Ok a, w') => (Ok a, w')
  | (Raise e, w') => h e w'
  end.

(** [try: m finally: cleanup] *)
Definition try_finally {A : Type} (m : M A) (cleanup : M unit) : M A := fun w =>
  match m w with
  | (r, w') =>
      match cleanup w' with
      | (Ok _, w'') => (r, w'')
      | (Raise e, w'') => (Raise e, w'')
      end
  end.

Fixpoint for_each {A B : Type} (body : B -> A -> M B) (l : list A) (acc : B) : M B :=
  match l with
  | [] => mret acc
  | x :: l' => acc' ← body acc x; for_each body l' acc'
  end.

(** [load_config()]: the parsed file, or the defaults when reading fails. *)
Definition load_config (w : World) : Config :=
  match config_file w with
  | Parsed config => config
  | Missing | Unparsable => default_config
  end.

Definition read_config : M Config := fun w => (Ok (load_config w), w).

(** [os.makedirs(path, exist_ok=True)] *)
Definition os_makedirs (env : Env) (path : string) : M unit := fun w =>
  match makedirs_error env with
  | Some e => (Raise e, w)
  | None => (Ok tt, w)
  end.

(** [os.listdir(path)] on the files as they are now. *)
Definition listdir (env : Env) (path : string) : M (list string) := fun w =>
  (os_listdir env (fs w) path, w).

(** [compare_with_previous] on the files as they are now. *)
Definition compare (current_df : DataFrame) (previous_file : string) : M DataFrame := fun w =>
  (Ok (compare_with_previous (fs w) current_df previous_file), w).

(** [send_email_notification(subject, body, attachments)] *)
Definition send_email_notification (env : Env) (subject body : string)
    (attachments : option (list string)) : M unit := fun w0 =>
  let w := add_call (mkNotification subject body attachments) w0 in
  let config := load_config w in
  let email_config := email config in
  if negb (enabled email_config) then (Ok tt, w)
  else
    let parts :=
      match attachments with
      | Some l => omap (fun file_path => data ← fs w !! file_path;
                                         Some (os_path_basename file_path, data)) l
      | None => []
      end in
    let msg := mkEmail (sender_email email_config)
                       (join ", " (recipients email_config))
                       subject body parts in
    match smtp_error env with
    | Some _ => (Ok tt, w)
    | None => (Ok tt, add_mail msg w)
    end.

(** ** The scraper, as the workflow uses it *)

(** [ADBScraper(headless=True)]: starts the browser. *)
Definition ADBScraper (env : Env) : M unit := fun w =>
  match webdriver_error env with
  | Some e => (Raise e, w)
  | None => (Ok tt, set_sessions (S (sessions w)) w)
  end.

(** [scraper.search_tenders(filters)] and [scraper.search_projects(filters)]:
    any exception inside is logged and an empty frame returned. *)
Definition search (env : Env) (cat : Category) (filters : Filters) : DataFrame :=
  try_except (site env cat filters) (fun _ => pd_DataFrame).

(** [scraper.save_results_to_csv(results, filename)]: a failed write is logged. *)
Definition save_results_to_csv (env : Env) (results : DataFrame) (filename : string) : M unit :=
  fun w =>
    match to_csv_error env filename with
    | Some _ => (Ok tt, w)
    | None => (Ok tt, set_fs (<[filename := to_csv results]> (fs w)) w)
    end.

(** [scraper.close()]: [driver.quit()] ends the session; an error it raises
    is logged. *)
Definition close : M unit := fun w => (Ok tt, set_sessions (pred (sessions w)) w).

(** ** One run *)

(** The local variables of [run_job] that the loops update. *)
Record Acc : Type := mkAcc {
  notification_body : list string;
  attachment_paths : list string;
  new_items_found : bool
}.

Definition cell_str (c : option string) : string := default "nan" c.

(** [f"Found {len(new_items)} new tenders for {filter_name}:"] *)
Definition new_items_header (n : nat) (cat : Category) (filter_name : string) : string :=
  "Found " ++ str_of_nat n ++ " new " ++ category_name cat ++ " for " ++ filter_name ++ ":".

(** [f"Found {len(results)} tenders for {filter_name} (first run)"] *)
Definition first_run_header (n : nat) (cat : Category) (filter_name : string) : string :=
  "Found " ++ str_of_nat n ++ " " ++ category_name cat ++ " for " ++ filter_name
  ++ " (first run)".

(** [f"- {row['Title']}"] *)
Definition title_line (row : Row) : string := "- " ++ cell_str (row !! "Title").

(** The body of the loop over the filters of one category. *)
Definition process_filter (env : Env) (cat : Category) (output_dir timestamp : string)
    (acc : Acc) (f : FilterSpec) : M Acc :=
  let filter_name := default "unnamed" (name f) in
  let filters := mkFilters (country f) (status f) (sector f) in
  let results := search env cat filters in
  if negb (df_empty results) then
    let output_file :=
      output_dir ++ "/" ++ category_name cat ++ "_" ++ filter_name ++ "_" ++ timestamp ++ ".csv" in
    _ ← save_results_to_csv env results output_file;
    let attachments := (attachment_paths acc ++ [output_file])%list in
    listing ← listdir env output_dir;
    let previous_file :=
      resolve_previous (category_name cat ++ "_" ++ filter_name ++ "_")
                       (os_path_basename output_file) listing in
    match previous_file with
    | Some (String _ _ as previous_file) =>
        let previous_file := os_path_join output_dir previous_file in
        new_items ← compare results previous_file;
        if negb (df_empty new_items) then
          mret (mkAcc
                  (notification_body acc
                   ++ [new_items_header (len new_items) cat filter_name]
                   ++ (title_line <$> rows new_items)
                   ++ [""])%list
                  attachments true)
        else
          mret (mkAcc (notification_body acc) attachments (new_items_found acc))
    | _ =>
        mret (mkAcc
                (notification_body acc
                 ++ [first_run_header (len results) cat filter_name]
                 ++ [""])%list
                attachments true)
    end
  else
    mret acc.

(** The body of the [try] of [run_job]. *)
Definition run_body (env : Env) (config : Config) (output_dir timestamp : string) : M unit :=
  acc ← for_each (process_filter env Tenders output_dir timestamp)
                 (tenders config) (mkAcc [] [] false);
  acc ← for_each (process_filter env Projects output_dir timestamp)
                 (projects config) acc;
  if new_items_found acc then
    send_email_notification env update_subject (join nl (notification_body acc))
                            (Some (attachment_paths acc))
  else
    mret tt.

(** [run_job()] *)
Definition run_job (env : Env) : M unit :=
  config ← read_config;
  let output_dir := default "output" (output_dir config) in
  _ ← os_makedirs env output_dir;
  let timestamp := now env in
  _ ← ADBScraper env;
  try_finally
    (try_except_M
       (run_body env config output_dir timestamp)
       (fun e => send_email_notification env error_subject (error_body e) None))
    close.

(** ** The process *)

Inductive Every : Type := EveryDay | EveryMonday.

Record Job : Type := mkJob {
  every : Every;
  at_time : string
}.

(** [setup_schedule()] *)
Definition setup_schedule (w : World) : Job :=
  let config := load_config w in
  let schedule_config := schedule config in
  let frequency := default "daily" (frequency schedule_config) in
  let run_time := default "09:00" (time schedule_config) in
  if String.eqb frequency "daily" then mkJob EveryDay run_time
  else if String.eqb frequency "weekly" then mkJob EveryMonday run_time
  else mkJob EveryDay run_time.

(** A process is alive with its scheduled job, or an exception has left
    [main]. *)
Inductive Process : Type :=
  | Alive (job : Job) (w : World)
  | Crashed (e : exn) (w : World).

Definition run_scheduled (env : Env) (job : Job) (w : World) : Process :=
  match run_job env w with
  | (Ok _, w') => Alive job w'
  | (Raise e, w') => Crashed e w'
  end.

(** [main()] up to the schedule loop: the default configuration is written
    out when there is no file, the job is scheduled, and run once. *)
Definition main_start (env : Env) (w : World) : Process :=
  let w :=
    match config_file w with
    | Missing => set_config_file (Parsed (load_config w)) w
    | _ => w
    end in
  let job := setup_schedule w in
  run_scheduled env job w.

(** What happens between and at the iterations of the schedule loop: an
    iteration finds the job due or not (and the run then meets [env]), or
    [config.json] is rewritten from outside. *)
Inductive Event : Type :=
  | Tick (due : bool) (env : Env)
  | ConfigEdited (c : ConfigFile).

Definition loop_step (p : Process) (ev : Event) : Process :=
  match p with
  | Crashed _ _ => p
  | Alive job w =>
      match ev with
      | Tick true env => run_scheduled env job w
      | Tick false _ => p
      | ConfigEdited c => Alive job (set_config_file c w)
      end
  end.

(** [main()]: start, then the loop over what happens. *)
Definition main (env : Env) (events : list Event) (w : World) : Process :=
  fold_left loop_step events (main_start env w).

(** ** A run, lineage by lineage

    Reference definitions for the properties of a run: what one lineage
    (a category and a filter) does to the files and finds, and how the
    findings of the lineages add up. *)

Inductive Outcome : Type :=
  | NoResults
  | FirstRun (output_file : string) (results : DataFrame)
  | Compared (output_file previous_file : string) (new_items : DataFrame).

Record Report : Type := mkReport {
  report_category : Category;
  report_filter_name : string;
  report_outcome : Outcome
}.

(** The filters, the name and the snapshot file of a lineage. *)
Definition filters_of (f : FilterSpec) : Filters :=
  mkFilters (country f) (status f) (sector f).

Definition filter_name_of (f : FilterSpec) : string := default "unnamed" (name f).

Definition output_file_of (output_dir : string) (cat : Category) (f : FilterSpec)
    (timestamp : string) : string :=
  output_dir ++ "/" ++ snapshot_name cat (filter_name_of f) timestamp.

(** The lineage of [f] in category [cat]: fetch; if there are results, save
    them under the timestamped name, resolve the previous snapshot and
    compare with it. *)
Definition lineage_report (env : Env) (cat : Category) (output_dir timestamp : string)
    (f : FilterSpec) : M Report :=
  let filter_name := filter_name_of f in
  let results := search env cat (filters_of f) in
  if df_empty results then mret (mkReport cat filter_name NoResults)
  else
    let output_file := output_file_of output_dir cat f timestamp in
    _ ← save_results_to_csv env results output_file;
    listing ← listdir env output_dir;
    match resolve_previous (lineage_prefix cat filter_name)
                           (os_path_basename output_file) listing with
    | Some (String _ _ as previous) =>
        new_items ← compare results (os_path_join output_dir previous);
        mret (mkReport cat filter_name
                (Compared output_file (os_path_join output_dir previous) new_items))
    | _ => mret (mkReport cat filter_name (FirstRun output_file results))
    end.

(** The lineage yielded new records. *)
Definition yields_new (r : Report) : bool :=
  match report_outcome r with
  | NoResults => false
  | FirstRun _ _ => true
  | Compared _ _ new_items => negb (df_empty new_items)
  end.

(** The lines of the digest about one lineage. *)
Definition digest (r : Report) : list string :=
  match report_outcome r with
  | NoResults => []
  | FirstRun _ results =>
      [first_run_header (len results) (report_category r) (report_filter_name r); ""]
  | Compared _ _ new_items =>
      if df_empty new_items then []
      else (new_items_header (len new_items) (report_category r) (report_filter_name r)
            :: (title_line <$> rows new_items)) ++ [""]
  end%list.

(** The snapshot file of the lineage in this run, if it has one. *)
Definition saved_file (r : Report) : list string :=
  match report_outcome r with
  | NoResults => []
  | FirstRun output_file _ => [output_file]
  | Compared output_file _ _ => [output_file]
  end.

(** The lineages of a category one after the other. *)
Fixpoint collect (env : Env) (cat : Category) (output_dir timestamp : string)
    (filters : list FilterSpec) : M (list Report) :=
  match filters with
  | [] => mret []
  | f :: filters' =>
      r ← lineage_report env cat output_dir timestamp f;
      rs ← collect env cat output_dir timestamp filters';
      mret (r :: rs)
  end.

(** The notifier call that bundles the findings of [reports]. *)
Definition update_notification (reports : list Report) : Notification :=
  mkNotification update_subject
                 (join nl (concat (digest <$> reports)))
                 (Some (concat (saved_file <$> reports))).

Definition is_failure (n : Notification) : bool := String.eqb (subject n) error_subject.

(** How the loops fold one report into their variables. *)
Definition accumulate (acc : Acc) (r : Report) : Acc :=
  mkAcc (notification_body acc ++ digest r)%list
        (attachment_paths acc ++ saved_file r)%list
        (new_items_found acc || yields_new r).

(** All lineages of a run: the tenders filters, then the projects filters. *)
Definition collect_all (env : Env) (config : Config) (output_dir timestamp : string)
    : M (list Report) :=
  rs_tenders ← collect env Tenders output_dir timestamp (tenders config);
  rs_projects ← collect env Projects output_dir timestamp (projects config);
  mret (rs_tenders ++ rs_projects)%list.

(** The end of the [try] of [run_job]: one call if a lineage yielded new
    records, none otherwise. *)
Definition notify (env : Env) (reports : list Report) : M unit :=
  if existsb yields_new reports then
    send_email_notification env update_subject
                            (join nl (concat (digest <$> reports)))
                            (Some (concat (saved_file <$> reports)))
  else mret tt.

(** [m] leaves the observation [obs] of the world as it was, whether it
    returns or raises. *)
Definition preserves {A T : Type} (obs : World -> T) (m : M A) : Prop :=
  forall w, obs (m w).2 = obs w.

(** An observation that does not look at the files, or at the notifier. *)
Definition ignores_files {T : Type} (obs : World -> T) : Prop :=
  forall files w, obs (set_fs files w) = obs w.

Definition ignores_notifier {T : Type} (obs : World -> T) : Prop :=
  forall w, (forall n, obs (add_call n w) = obs w) /\ (forall m, obs (add_mail m w) = obs w).

(** The world once the browser of a run has started. *)
Definition started (w : World) : World := set_sessions (S (sessions w)) w.

End Workflow.

Arguments Email FileData : clear implicits.
Arguments World FileData : clear implicits.
Arguments Env FileData : clear implicits.
Arguments Process FileData : clear implicits.
Arguments Event FileData : clear implicits.

(** The world a process is left with, alive or not. *)
Definition world_of {FileData : Type} (p : Process FileData) : World FileData :=
  match p with
  | Alive _ w => w
  | Crashed _ w => w
  end.

(** The iteration runs the job. *)
Definition is_due {FileData : Type} (ev : Event FileData) : bool :=
  match ev with
  | Tick due _ => due
  | ConfigEdited _ => false
  end.

(** ** Reference definitions of the specification *)

(** The identity key of a record. *)
Definition title (r : Row) : option string := r !! "Title".

(** The change detector as specified: the current records whose Title does
    not occur among the Titles of the previous snapshot, in the order of the
    current snapshot. *)
Definition spec_diff (current previous : DataFrame) : DataFrame :=
  mkDataFrame (columns current)
              (filter (fun r : Row => title r ∉ title <$> rows previous) (rows current)).

(** ** Files held in memory, for the examples

    A file is the frame pandas reads from it, or is not a table at all. *)

Inductive MemFile : Type :=
  | Table (df : DataFrame)
  | Junk.

#[global] Instance mem_csv : Csv MemFile := {|
  read_csv data :=
    match data with
    | Table df => Ok df
    | Junk => Raise (LibraryError "No columns to parse from file")
    end;
  to_csv := Table
|}.

(** A record with a Title only, and a snapshot of such records. *)
Definition titled (t : string) : Row := {[ "Title" := t ]}.
Definition snapshot (titles : list string) : DataFrame :=
  mkDataFrame ["Title"] (titled <$> titles).

(** The shape of [strftime("%Y%m%d_%H%M%S")]: digits and underscores. *)
Definition stamp_char (c : ascii) : bool :=
  Ascii.eqb c "_" || (Nat.leb 48 (nat_of_ascii c) && Nat.leb (nat_of_ascii c) 57).

Fixpoint string_forallb (P : ascii -> bool) (s : string) : bool :=
  match s with
  | EmptyString => true
  | String c s' => P c && string_forallb P s'
  end.

Definition is_timestamp (ts : string) : bool := string_forallb stamp_char ts.

(** The previous snapshot as specified: among the snapshots of the lineage
    in the listing, the one with the greatest timestamp strictly less than
    the timestamp [now] of the current run, and none when there is no
    earlier one. *)
Definition spec_previous (cat : Category) (filter_name now : string)
    (listing : list string) (previous : option string) : Prop :=
  match previous with
  | Some file =>
      exists ts, file = snapshot_name cat filter_name ts
        /\ file ∈ listing
        /\ str_gt now ts = true
        /\ forall ts', snapshot_name cat filter_name ts' ∈ listing ->
              str_gt now ts' = true -> String.le ts' ts
  | None =>
      forall ts', snapshot_name cat filter_name ts' ∈ listing -> str_gt now ts' = false
  end.

(** [os.listdir] over files held in memory: the names under [dir]. *)
Definition mem_listdir (files : gmap string MemFile) (dir : string) : result (list string) :=
  Ok (omap (fun path : string =>
              if startswith path (dir ++ "/") then Some (os_path_basename path) else None)
           (map_to_list files).*1).

(** An environment in which nothing fails: the clock reads [ts] and the
    site answers [answer]. *)
Definition calm_env (ts : string) (answer : Category -> Filters -> result DataFrame)
    : Env MemFile :=
  mkEnv ts None None answer (fun _ => None) mem_listdir None.

Definition filter_for (filter_name country : string) : FilterSpec :=
  mkFilterSpec (Some filter_name) (Some country) (Some "Active") None.

Definition config_for (mail_enabled : bool) (recipient : string)
    (tender_filters : list FilterSpec) : Config :=
  mkConfig (mkEmailConfig mail_enabled "smtp.example.org" 587 "monitor@example.org"
                          "secret" [recipient])
           tender_filters [] (mkScheduleConfig None None) None.

Definition world_with (config : Config) (files : gmap string MemFile) : World MemFile :=
  mkWorld (Parsed config) files [] [] 0.

(** What the loop of [run_job] resolves: among the snapshots of the lineage
    in the listing other than the one of the current run, taken at [now],
    the one with the greatest timestamp, and none when there is no other. *)
Definition latest_other (cat : Category) (filter_name now : string)
    (listing : list string) (previous : option string) : Prop :=
  match previous with
  | Some file =>
      exists ts, file = snapshot_name cat filter_name ts
        /\ is_timestamp ts = true
        /\ file ∈ listing
        /\ ts <> now
        /\ forall ts', snapshot_name cat filter_name ts' ∈ listing -> ts' <> now ->
              String.le ts' ts
  | None => forall ts', snapshot_name cat filter_name ts' ∈ listing -> ts' = now
  end.

(** ** Example data

    One lineage, the tenders filter "water", with a snapshot from the day
    before; and a configuration of three tenders filters whose second one
    the site cannot answer. *)

Definition baseline_file : string := "output/tenders_water_20250101_090000.csv".

Definition water_config (recipient : string) : Config :=
  config_for true recipient [filter_for "water" "India"].

Definition baseline_files : gmap string MemFile :=
  {[ baseline_file := Table (snapshot ["X"; "Y"]) ]}.

Definition baseline_world : World MemFile :=
  world_with (water_config "a@example.org") baseline_files.

Definition day (ts : string) (titles : list string) : Env MemFile :=
  calm_env ts (fun _ _ => Ok (snapshot titles)).

Definition next_day (titles : list string) : Env MemFile := day "20250102_090000" titles.

Definition three_filters : list FilterSpec :=
  [filter_for "one" "India"; filter_for "two" "Nepal"; filter_for "three" "Fiji"].

Definition flaky_site (cat : Category) (filters : Filters) : result DataFrame :=
  if decide (f_country filters = Some "Nepal") then Raise (LibraryError "timeout")
  else Ok (snapshot ["X"; "Y"]).

Definition flaky_day : Env MemFile := calm_env "20250101_090000" flaky_site.

Definition three_world : World MemFile :=
  world_with (config_for true "a@example.org" three_filters) ∅.

(** The listing of the output directory fails once the file [path] exists. *)
Definition listing_fails_after (path : string) (files : gmap string MemFile)
    (dir : string) : result (list string) :=
  if os_path_exists files path then Raise (OSError "Permission denied")
  else mem_listdir files dir.

Definition broken_day : Env MemFile :=
  mkEnv "20250101_090000" None None (fun _ _ => Ok (snapshot ["X"; "Y"])) (fun _ => None)
        (listing_fails_after "output/tenders_two_20250101_090000.csv") None.

(** A listing of the output directory, in no particular order: three
    snapshots of the lineage "water", files of other lineages, and a file
    that is no snapshot. *)
Definition sample_listing : list string :=
  ["tenders_water_20250102_090000.csv";
   "projects_water_20250107_090000.csv";
   "tenders_water_20250103_090000.csv";
   "notes.txt";
   "tenders_water_20250101_090000.csv";
   "tenders_roads_20250109_090000.csv"].

(** The clock was set back: the directory holds a snapshot dated after the
    current run. *)
Definition skewed_listing : list string :=
  ["tenders_water_20250102_090000.csv"; "tenders_water_20250101_090000.csv"].

(** [config.json] is rewritten after startup, then the job comes due. *)
Definition edited_events : list (Event MemFile) :=
  [ConfigEdited (Parsed (water_config "b@example.org"));
   Tick true (day "20250103_090000" ["X"; "Y"; "Z"; "W"])].

Definition quiet_events : list (Event MemFile) :=
  [Tick false (day "20250102_100000" ["X"; "Y"; "Z"]);
   Tick true (day "20250103_090000" ["X"; "Y"; "Z"; "W"])].

(** ** The scraper's reading of a page ([adb_scraper.py])

    What selenium finds is data: the elements matching a selector are a list
    of their texts, [find_element] takes the first and raises when there is
    none.  [_apply_filter] clicks in the page and catches whatever goes
    wrong, so it never changes the course of a search: a [Page] is what the
    browser shows once the filters are applied.  Characters are code points
    below 256. *)

(** [c.isspace()] *)
Definition is_space (c : ascii) : bool :=
  let n := nat_of_ascii c in
  (Nat.leb 9 n && Nat.leb n 13) || (Nat.leb 28 n && Nat.leb n 32)
  || Nat.eqb n 133 || Nat.eqb n 160.

Fixpoint lstrip (s : string) : string :=
  match s with
  | EmptyString => EmptyString
  | String c s' => if is_space c then lstrip s' else s
  end.

(** [s.strip()] *)
Definition strip (s : string) : string := String.rev (lstrip (String.rev (lstrip s))).

(** [text.split(":", 1)] when [":" in text]: what stands before and after
    the first colon. *)
Fixpoint split_colon (text : string) : option (string * string) :=
  match text with
  | EmptyString => None
  | String c text' =>
      if Ascii.eqb c ":" then Some (EmptyString, text')
      else match split_colon text' with
           | Some (key, value) => Some (String c key, value)
           | None => None
           end
  end.

(** A Python [dict] with string keys, in insertion order. *)
Definition dict (V : Type) : Type := list (string * V).

(** [d[k] = v] *)
Fixpoint dict_set {V : Type} (d : dict V) (k : string) (v : V) : dict V :=
  match d with
  | [] => [(k, v)]
  | (k', v') :: d' =>
      if String.eqb k' k then (k, v) :: d' else (k', v') :: dict_set d' k v
  end.

(** [d.get(k)] *)
Fixpoint dict_get {V : Type} (d : dict V) (k : string) : option V :=
  match d with
  | [] => None
  | (k', v') :: d' => if String.eqb k' k then Some v' else dict_get d' k
  end.

(** [{**d, **other}] *)
Definition dict_update {V : Type} (d other : dict V) : dict V :=
  fold_left (fun d kv => dict_set d kv.1 kv.2) other d.

(** [find_element]: the first match, or [NoSuchElementException]. *)
Definition find_element {A : Type} (matches : list A) : result A :=
  match matches with
  | x :: _ => Ok x
  | [] => Raise (LibraryError "no such element")
  end.

(** [pd.DataFrame(results)] for a list of records: the columns are the keys
    in the order they first occur, a value [None] is a missing cell. *)
Definition add_column (cols : list string) (k : string) : list string :=
  if decide (k ∈ cols) then cols else cols ++ [k].

Definition frame_columns (records : list (dict (option string))) : list string :=
  fold_left (fun cols record => fold_left add_column record.*1 cols) records [].

Definition to_row (record : dict (option string)) : Row :=
  list_to_map (omap (fun kv : string * option string => pair kv.1 <$> kv.2) record).

Definition pd_DataFrame_of (records : list (dict (option string))) : DataFrame :=
  mkDataFrame (frame_columns records) (to_row <$> records).

(** [results[results['Status'] == status]]: no cell equals [None]. *)
Definition filter_status (results : DataFrame) (status : option string) : result DataFrame :=
  _ ← getitem results "Status";
  mret (mkDataFrame (columns results)
          (filter (fun r : Row => is_Some status /\ r !! "Status" = status) (rows results))).

(** A record with distinct keys and a Title and a Status cell, as both
    extractions produce them. *)
Definition is_listed (record : dict (option string)) : Prop :=
  NoDup record.*1 /\ is_Some (to_row record !! "Title")
  /\ is_Some (to_row record !! "Status").

(** The link in the heading of an item. *)
Record Link : Type := mkLink {
  link_text : string;
  link_href : option string
}.

(** A [div.tender-item]: the matches of [h3.title a], the texts of
    [div.metadata div] and of [div.status]. *)
Record TenderItem : Type := mkTenderItem {
  tender_title_links : list Link;
  tender_metadata : list string;
  tender_status : list string
}.

(** A [div.project-item]: the matches of [h3.title a], and the texts of
    [div.project-id], [div.status] and [div.year]. *)
Record ProjectItem : Type := mkProjectItem {
  project_title_links : list Link;
  project_ids : list string;
  project_status : list string;
  project_years : list string
}.

(** What a search meets: whether loading the page or waiting for
    [.filter-results] fails, and the items shown. *)
Record Page : Type := mkPage {
  get_error : option exn;
  wait_error : option exn;
  tender_items : list TenderItem;
  project_items : list ProjectItem
}.

Definition raise_if (e : option exn) : result unit :=
  match e with
  | Some e => Raise e
  | None => Ok tt
  end.

(** [":" not in s] *)
Definition colon_free (s : string) : bool :=
  string_forallb (fun c => negb (Ascii.eqb c ":")) s.

(** The loop over [metadata_elements]. *)
Definition parse_metadata (texts : list string) : dict string :=
  fold_left (fun metadata text =>
               match split_colon (strip text) with
               | Some (key, value) => dict_set metadata (strip key) (strip value)
               | None => metadata
               end)
            texts [].

(** The text of the first match, stripped, or the default. *)
Definition first_text (default : string) (texts : list string) : string :=
  match texts with
  | text :: _ => strip text
  | [] => default
  end.

(** The body of the [try] for one tender item. *)
Definition tender_record (item : TenderItem) : result (dict (option string)) :=
  title_element ← find_element (tender_title_links item);
  let title := strip (link_text title_element) in
  let link := link_href title_element in
  let metadata := parse_metadata (tender_metadata item) in
  let status := first_text "Unknown" (tender_status item) in
  mret (dict_update [("Title", Some title); ("Link", link); ("Status", Some status)]
                    (prod_map id Some <$> metadata)).

(** The records of the items whose [try] does not raise. *)
Definition records_of {A : Type} (record : A -> result (dict (option string)))
    (items : list A) : list (dict (option string)) :=
  omap (fun item => match record item with
                    | Ok r => Some r
                    | Raise _ => None
                    end) items.

(** [_extract_tender_results()] *)
Definition _extract_tender_results (page : Page) : DataFrame :=
  pd_DataFrame_of (records_of tender_record (tender_items page)).

(** The body of the [try] for one project item. *)
Definition project_record (item : ProjectItem) : result (dict (option string)) :=
  title_element ← find_element (project_title_links item);
  let title := strip (link_text title_element) in
  let link := link_href title_element in
  project_id ← find_element (project_ids item);
  let project_details := strip project_id in
  let status := first_text "Unknown" (project_status item) in
  let approval_year := first_text "Unknown" (project_years item) in
  mret [("Title", Some title); ("Link", link); ("Project Details", Some project_details);
        ("Status", Some status); ("Approval Year", Some approval_year)].

(** [_extract_project_results()] (the second definition, which replaces the
    first and differs from it by two log lines) *)
Definition _extract_project_results (page : Page) : DataFrame :=
  pd_DataFrame_of (records_of project_record (project_items page)).

(** The body of the [try] of [search_tenders], for the filters [run_job]
    hands over (all three keys present, a value possibly [None]). *)
Definition search_tenders_body (page : Page) (filters : Filters) : result DataFrame :=
  _ ← raise_if (get_error page);
  _ ← raise_if (wait_error page);
  let results := _extract_tender_results page in
  filter_status results (f_status filters).

(** [search_tenders(filters)] *)
Definition search_tenders (page : Page) (filters : Filters) : DataFrame :=
  try_except (search_tenders_body page filters) (fun _ => pd_DataFrame).

Definition search_projects_body (page : Page) (filters : Filters) : result DataFrame :=
  _ ← raise_if (get_error page);
  _ ← raise_if (wait_error page);
  let results := _extract_project_results page in
  filter_status results (f_status filters).

(** [search_projects(filters)] *)
Definition search_projects (page : Page) (filters : Filters) : DataFrame :=
  try_except (search_projects_body page filters) (fun _ => pd_DataFrame).

(** The site of an environment, when the scraper reads [pages]. *)
Definition scraped_site (pages : Category -> Filters -> Page)
    (cat : Category) (filters : Filters) : result DataFrame :=
  match cat with
  | Tenders => search_tenders_body (pages cat filters) filters
  | Projects => search_projects_body (pages cat filters) filters
  end.

(** A [div.metadata-item]: the texts of [div.label] and of [div.value]. *)
Record MetadataItem : Type := mkMetadataItem {
  item_labels : list string;
  item_values : list string
}.

(** The page of one tender or project. *)
Record DetailPage : Type := mkDetailPage {
  detail_get_error : option exn;
  detail_wait_error : option exn;
  page_titles : list string;
  metadata_items : list MetadataItem;
  descriptions : list string
}.

(** The body of the [try] of [get_tender_details] and of
    [get_project_details], which differ by a selector and the log lines. *)
Definition get_details_body (page : DetailPage) : result (dict string) :=
  _ ← raise_if (detail_get_error page);
  _ ← raise_if (detail_wait_error page);
  title_element ← find_element (page_titles page);
  let details := [("Title", strip title_element)] in
  let details :=
    fold_left (fun details item =>
                 match (label ← find_element (item_labels item);
                        value ← find_element (item_values item);
                        mret (strip label, strip value)) with
                 | Ok (label, value) => dict_set details label value
                 | Raise _ => details
                 end)
              (metadata_items page) details in
  let details :=
    dict_set details "Description"
             (match find_element (descriptions page) with
              | Ok description => strip description
              | Raise _ => EmptyString
              end) in
  mret details.

(** What one [div.metadata-item] adds to the details: its label and value,
    when it has both. *)
Definition labelled (item : MetadataItem) : option (string * string) :=
  label ← head (item_labels item);
  value ← head (item_values item);
  Some (strip label, strip value).

(** [get_tender_details(url)] *)
Definition get_tender_details (page : DetailPage) : dict string :=
  try_except (get_details_body page) (fun _ => []).

(** [get_project_details(url)] *)
Definition get_project_details (page : DetailPage) : dict string :=
  try_except (get_details_body page) (fun _ => []).

(** ** Further reference definitions *)

(** [m] keeps the property [P] of the world, whether it returns or raises. *)
Definition keeps {FileData A : Type} (P : World FileData -> Prop) (m : @M FileData A)
    : Prop :=
  forall w, P w -> P (m w).2.

(** A name without a path separator, as [os.listdir] returns them. *)
Definition slash_free (s : string) : bool :=
  string_forallb (fun c => negb (Ascii.eqb c "/")) s.

(** The names under which a run at [timestamp] saves the snapshots of the
    configured filters, inside the output directory: what follows
    [f"{output_dir}/"] in [output_file]. *)
Definition own_snapshots (config : Config) (timestamp : string) : list string :=
  ((fun f => snapshot_name Tenders (filter_name_of f) timestamp) <$> tenders config)
  ++ ((fun f => snapshot_name Projects (filter_name_of f) timestamp) <$> projects config).



(** ** Further example data *)

(** The baseline under the same path with its Titles in another order, one
    of them twice. *)
Definition reordered_files : gmap string MemFile :=
  {[ baseline_file := Table (snapshot ["Y"; "X"; "X"]) ]}.

(** A day on which the output directory cannot be created. *)
Definition stuck_day : Env MemFile :=
  mkEnv "20250102_090000" (Some (OSError "Read-only file system")) None
        (fun _ _ => Ok (snapshot ["X"; "Y"])) (fun _ => None) mem_listdir None.

(** A tenders page: an item with metadata, an item without a heading link,
    an item whose metadata overrides its status, an item without a status;
    and a projects page with one complete item and one without a project
    id. *)
Definition sample_tender_items : list TenderItem :=
  [mkTenderItem [mkLink " Pump station " (Some "https://www.adb.org/projects/tenders/1")]
                ["Country: India"; "closing soon"; " Deadline : 2025-03-01 12:00 "]
                [" Active "];
   mkTenderItem [] ["Country: Nepal"] ["Active"];
   mkTenderItem [mkLink "Road works" None] ["Status: Closed"] ["Active"];
   mkTenderItem [mkLink "Bridge" (Some "https://www.adb.org/projects/tenders/3")] [] []].

Definition sample_project_items : list ProjectItem :=
  [mkProjectItem [mkLink "Solar park" (Some "https://www.adb.org/projects/53001-001")]
                 [" 53001-001 India "] ["Active"] ["2024"];
   mkProjectItem [mkLink "Metro line" None] [] ["Active"] []].

Definition sample_page : Page :=
  mkPage None None sample_tender_items sample_project_items.

Definition sample_pages (cat : Category) (filters : Filters) : Page := sample_page.

(** A day on which nothing fails and the scraper reads [pages]. *)
Definition scraped_day (ts : string) (pages : Category -> Filters -> Page) : Env MemFile :=
  calm_env ts (scraped_site pages).

Definition active_filters : Filters := mkFilters (Some "India") (Some "Active") None.

(** A filter of [config.json] without a status. *)
Definition unset_status_filter : FilterSpec :=
  mkFilterSpec (Some "water") (Some "India") None None.

Definition roads_files : gmap string MemFile :=
  {[ baseline_file := Table (snapshot ["Road works"; "Bridge"]) ]}.

Definition sample_detail_page : DetailPage :=
  mkDetailPage None None [" Pump station "]
    [mkMetadataItem ["Country"] [" India "];
     mkMetadataItem ["Description"] ["from the metadata"];
     mkMetadataItem ["Sector"] [];
     mkMetadataItem ["Country"] ["Nepal"]]
    [].

(** * Properties of the change detector *)

Section ChangeDetectorFacts.
Context {FileData : Type} `{!Csv FileData}.
Implicit Types (files : gmap string FileData) (df : DataFrame).

Lemma getitem_ok df col :
  col ∈ columns df -> getitem df col = Ok ((fun r : Row => r !! col) <$> rows df).
Proof. intros Hin. unfold getitem. by rewrite decide_True. Qed.

Lemma getitem_missing df col :
  col ∉ columns df -> getitem df col = Raise (KeyError col).
Proof. intros Hin. unfold getitem. by rewrite decide_False. Qed.

Lemma os_path_exists_true files path data :
  files !! path = Some data -> os_path_exists files path = true.
Proof. intros Hfile. unfold os_path_exists. rewrite Hfile. by apply bool_decide_eq_true. Qed.

Lemma os_path_exists_false files path :
  files !! path = None -> os_path_exists files path = false.
Proof.
  intros Hfile. unfold os_path_exists. rewrite Hfile.
  apply bool_decide_eq_false. by intros [? ?].
Qed.

(** Two filters that agree on the elements of the list select the same. *)
Lemma filter_agree {A : Type} (P Q : A -> Prop)
    `{!forall x, Decision (P x)} `{!forall x, Decision (Q x)} (l : list A) :
  (forall x, x ∈ l -> P x <-> Q x) -> filter P l = filter Q l.
Proof.
  induction l as [|x l IH]; intros Hagree; [done|].
  rewrite !filter_cons.
  assert (P x <-> Q x) as Hx by (apply Hagree; left).
  rewrite IH by (intros y Hy; apply Hagree; by right).
  destruct (decide (P x)), (decide (Q x)); tauto || done.
Qed.

(** The set difference of the code selects what the specification selects. *)
Lemma select_new_ids current previous :
  select_isin current "Title"
    (list_to_set ((fun r : Row => r !! "Title") <$> rows current)
     ∖ list_to_set ((fun r : Row => r !! "Title") <$> rows previous))
  = spec_diff current previous.
Proof.
  unfold select_isin, spec_diff. f_equal.
  apply filter_agree. intros r Hr. unfold title.
  rewrite elem_of_difference, !elem_of_list_to_set.
  split; [tauto|]. intros Hnew. split; [|done].
  apply list_elem_of_fmap. by exists r.
Qed.

Lemma compare_body_existing files current previous_file data previous :
  files !! previous_file = Some data ->
  read_csv data = Ok previous ->
  "Title" ∈ columns current ->
  "Title" ∈ columns previous ->
  compare_body files current previous_file = Ok (spec_diff current previous).
Proof.
  intros Hfile Hread Hcur Hprev. unfold compare_body.
  rewrite (os_path_exists_true _ _ _ Hfile), Hfile, Hread. simpl.
  rewrite (getitem_ok _ _ Hcur). simpl.
  rewrite (getitem_ok _ _ Hprev). simpl.
  by rewrite select_new_ids.
Qed.

Lemma filter_known_titles (l previous : list Row) :
  (forall r, r ∈ l -> r ∈ previous) ->
  filter (fun r : Row => title r ∉ title <$> previous) l = [].
Proof.
  induction l as [|r l IH]; intros Hsub; [done|].
  rewrite filter_cons_False.
  - apply IH. intros x Hx. apply Hsub. by right.
  - intros Hnew. apply Hnew, list_elem_of_fmap. exists r. split; [done|].
    apply Hsub. left.
Qed.

Lemma spec_diff_self df : rows (spec_diff df df) = [].
Proof. unfold spec_diff. simpl. by apply filter_known_titles. Qed.

(** C1. With a previous snapshot on file, [compare_with_previous] returns
    exactly the records of the current snapshot whose Title is not a Title of
    the previous snapshot, in the order of the current snapshot; a record is
    in the result if and only if it is a current record with a new Title. *)
Theorem compare_with_previous_new_titles files current previous_file data previous :
  files !! previous_file = Some data ->
  read_csv data = Ok previous ->
  "Title" ∈ columns current ->
  "Title" ∈ columns previous ->
  compare_with_previous files current previous_file = spec_diff current previous
  /\ (forall r : Row,
        r ∈ rows (compare_with_previous files current previous_file)
        <-> r ∈ rows current /\ title r ∉ title <$> rows previous)
  /\ rows (compare_with_previous files current previous_file) `sublist_of` rows current.
Proof.
  intros Hfile Hread Hcur Hprev.
  assert (compare_with_previous files current previous_file = spec_diff current previous) as ->.
  { unfold compare_with_previous.
    by rewrite (compare_body_existing _ _ _ _ _ Hfile Hread Hcur Hprev). }
  split; [done|]. split.
  - intros r. unfold spec_diff. simpl. rewrite list_elem_of_filter. tauto.
  - unfold spec_diff. simpl. apply sublist_filter.
Qed.

(** C2. Without a previous file every record of the current snapshot is
    returned, unchanged. *)
Theorem compare_with_previous_first_run files current previous_file :
  files !! previous_file = None ->
  compare_with_previous files current previous_file = current.
Proof.
  intros Hfile. unfold compare_with_previous, compare_body.
  by rewrite (os_path_exists_false _ _ Hfile).
Qed.

(** C6. A snapshot compared with a previous file that holds the same
    snapshot has no new record. *)
Theorem compare_with_previous_same files current previous_file data :
  files !! previous_file = Some data ->
  read_csv data = Ok current ->
  rows (compare_with_previous files current previous_file) = []
  /\ df_empty (compare_with_previous files current previous_file) = true.
Proof.
  intros Hfile Hread.
  assert (rows (compare_with_previous files current previous_file) = []) as Hrows.
  { destruct (decide ("Title" ∈ columns current)) as [Hcol|Hcol].
    - unfold compare_with_previous.
      rewrite (compare_body_existing _ _ _ _ _ Hfile Hread Hcol Hcol). simpl.
      apply spec_diff_self.
    - unfold compare_with_previous, compare_body.
      rewrite (os_path_exists_true _ _ _ Hfile), Hfile, Hread. simpl.
      by rewrite (getitem_missing _ _ Hcol). }
  split; [done|]. unfold df_empty. rewrite Hrows. by destruct (columns _).
Qed.

(** C10. When the previous file exists and the comparison fails inside
    (the file cannot be parsed, or the current or the previous snapshot has
    no Title column), the exception is caught: [compare_with_previous]
    returns the empty frame, and the run goes on with that value. *)
Theorem compare_with_previous_swallows_errors files current previous_file data :
  files !! previous_file = Some data ->
  (exists e, read_csv data = Raise e)
  \/ "Title" ∉ columns current
  \/ (exists previous, read_csv data = Ok previous /\ "Title" ∉ columns previous) ->
  (exists e, compare_body files current previous_file = Raise e)
  /\ compare_with_previous files current previous_file = pd_DataFrame
  /\ df_empty (compare_with_previous files current previous_file) = true
  /\ (forall w : World FileData, fs w = files ->
        compare current previous_file w = (Ok pd_DataFrame, w)).
Proof.
  intros Hfile Hfail.
  assert (exists e, compare_body files current previous_file = Raise e) as [e He].
  { unfold compare_body. rewrite (os_path_exists_true _ _ _ Hfile), Hfile.
    destruct Hfail as [[e He]|[Hcur|(previous & Hread & Hprev)]].
    - rewrite He. by exists e.
    - destruct (read_csv data) as [previous|e]; simpl; [|by exists e].
      rewrite (getitem_missing _ _ Hcur). by eexists.
    - rewrite Hread. simpl.
      destruct (getitem current "Title") as [ts|e]; simpl; [|by exists e].
      rewrite (getitem_missing _ _ Hprev). by eexists. }
  assert (compare_with_previous files current previous_file = pd_DataFrame) as Hempty.
  { unfold compare_with_previous. by rewrite He. }
  split; [by exists e|]. split; [done|]. split; [by rewrite Hempty|].
  intros w <-. unfold compare. by rewrite Hempty.
Qed.

End ChangeDetectorFacts.

(** * Properties of the lookup of the previous snapshot *)

Section PythonStrings.

Lemma prefix_app (p x : string) : String.prefix p (p ++ x) = true.
Proof.
  induction p as [|a p IH]; simpl; [by destruct x|].
  by destruct (ascii_dec a a).
Qed.

Lemma prefix_head_ne (a b : ascii) (s1 s2 : string) :
  a <> b -> String.prefix (String a s1) (String b s2) = false.
Proof. intros Hne. simpl. by destruct (ascii_dec a b). Qed.

Lemma string_forallb_app (P : ascii -> bool) (s1 s2 : string) :
  string_forallb P (s1 ++ s2) = string_forallb P s1 && string_forallb P s2.
Proof.
  induction s1 as [|c s1 IH]; simpl; [done|].
  by rewrite IH, andb_assoc.
Qed.

Lemma string_forallb_impl (P Q : ascii -> bool) (s : string) :
  (forall c, P c = true -> Q c = true) ->
  string_forallb P s = true -> string_forallb Q s = true.
Proof.
  intros HPQ. induction s as [|c s IH]; simpl; [done|].
  intros [Hc Hs]%andb_true_iff. apply andb_true_iff. auto.
Qed.

(** Once inside an occurrence, the scan passes over the rest of it. *)
Lemma replace_from_skip (old new u s : string) :
  replace_from old new (String.length u) (u ++ s) = replace_from old new 0 s.
Proof. induction u as [|c u IH]; simpl; [by destruct s|done]. Qed.

Lemma replace_from_hit (c : ascii) (old' new s : string) :
  replace_from (String c old') new 0 (String c old' ++ s)
  = new ++ replace_from (String c old') new 0 s.
Proof.
  change (String c old' ++ s) with (String c (old' ++ s)).
  cbn [replace_from].
  change (String c (old' ++ s)) with (String c old' ++ s).
  rewrite prefix_app. cbn [String.length]. rewrite Nat.sub_1_r. cbn [pred].
  by rewrite replace_from_skip.
Qed.

(** A string without the first character of [old] has no occurrence of it. *)
Lemma replace_from_absent (c : ascii) (old' new s : string) :
  string_forallb (fun x => negb (Ascii.eqb x c)) s = true ->
  replace_from (String c old') new 0 s = s.
Proof.
  induction s as [|x s IH]; [done|].
  cbn [string_forallb]. intros [Hx Hs]%andb_true_iff.
  cbn [replace_from]. rewrite prefix_head_ne.
  - by rewrite IH.
  - intros ->. by rewrite Ascii.eqb_refl in Hx.
Qed.

Lemma replace_csv_suffix (ts : string) :
  string_forallb (fun x => negb (Ascii.eqb x ".")) ts = true ->
  replace (ts ++ ".csv") ".csv" "" = ts.
Proof.
  unfold replace. induction ts as [|x ts IH]; [done|].
  cbn [string_forallb]. intros [Hx Hs]%andb_true_iff.
  change (String x ts ++ ".csv") with (String x (ts ++ ".csv")).
  cbn [replace_from]. rewrite prefix_head_ne.
  - by rewrite IH.
  - intros <-. by rewrite Ascii.eqb_refl in Hx.
Qed.

Lemma rev_app_app (a b acc : string) :
  String.rev_app (a ++ b) acc = String.rev_app b (String.rev_app a acc).
Proof. revert acc. induction a as [|c a IH]; intros acc; simpl; [done|]. apply IH. Qed.

Lemma endswith_csv (x : string) : endswith (x ++ ".csv") ".csv" = true.
Proof.
  unfold endswith, String.rev. rewrite rev_app_app. simpl.
  by destruct (String.rev_app x "").
Qed.

Lemma stamp_char_plain (c : ascii) :
  stamp_char c = true -> c <> "t"%char /\ c <> "p"%char /\ c <> "."%char.
Proof. destruct c as [[] [] [] [] [] [] [] []]; by cbv. Qed.

Lemma str_gt_false (a b : string) : str_gt a b = false <-> String.leb a b = true.
Proof.
  unfold str_gt, String.ltb, String.leb.
  rewrite (String.compare_antisym a b).
  destruct (String.compare b a); simpl; split; congruence.
Qed.

End PythonStrings.

Section PreviousSnapshot.
Implicit Types (prefix current file ts : string) (listing : list string).

Lemma string_app_cons (x : ascii) (a b : string) : String x a ++ b = String x (a ++ b).
Proof. reflexivity. Qed.

Lemma string_app_assoc (a b c : string) : (a ++ b) ++ c = a ++ (b ++ c).
Proof. induction a as [|x a IH]; [done|]. by rewrite !string_app_cons, IH. Qed.

Lemma string_length_app (a b : string) :
  String.length (a ++ b) = String.length a + String.length b.
Proof. induction a as [|x a IH]; [done|]. rewrite string_app_cons. simpl. by rewrite IH. Qed.

Lemma string_app_inv_tail (a b s : string) : a ++ s = b ++ s -> a = b.
Proof.
  revert b. induction a as [|x a IH]; intros [|y b] Heq.
  - done.
  - apply (f_equal String.length) in Heq.
    rewrite !string_length_app in Heq. simpl in Heq. lia.
  - apply (f_equal String.length) in Heq.
    rewrite !string_length_app in Heq. simpl in Heq. lia.
  - rewrite !string_app_cons in Heq. injection Heq as -> Heq. f_equal. by apply IH.
Qed.

Lemma snapshot_name_inj cat filter_name ts ts' :
  snapshot_name cat filter_name ts = snapshot_name cat filter_name ts' -> ts = ts'.
Proof.
  unfold snapshot_name. intros Heq%(inj (String.app _)).
  by apply string_app_inv_tail in Heq.
Qed.

Lemma str_gt_true_le (a b : string) : str_gt a b = true -> String.le b a.
Proof.
  unfold str_gt, String.ltb, String.le, String.leb.
  by destruct (String.compare b a).
Qed.

Lemma str_gt_false_le (a b : string) : str_gt a b = false -> String.le a b.
Proof. intros Hle%str_gt_false. unfold String.le. by rewrite Hle. Qed.

Lemma str_gt_irrefl (a : string) : str_gt a a = false.
Proof. apply str_gt_false. apply Is_true_true. apply (reflexivity (R:=String.le)). Qed.

(** The timestamp the loop reads off a snapshot name is the one in it. *)
Lemma file_timestamp_snapshot cat filter_name ts :
  is_timestamp ts = true ->
  file_timestamp (lineage_prefix cat filter_name) (snapshot_name cat filter_name ts) = ts.
Proof.
  intros Hts. unfold file_timestamp, snapshot_name.
  assert (exists (c : ascii) rest, lineage_prefix cat filter_name = String c rest
            /\ (c = "t"%char \/ c = "p"%char)) as (c & rest & -> & Hc).
  { destruct cat; simpl; eauto. }
  assert (replace (String c rest ++ ts ++ ".csv") (String c rest) "" = ts ++ ".csv") as ->.
  { unfold replace. rewrite replace_from_hit. simpl.
    apply replace_from_absent. rewrite string_forallb_app.
    apply andb_true_iff. split.
    - revert Hts. apply string_forallb_impl. intros x Hx%stamp_char_plain.
      apply negb_true_iff, Ascii.eqb_neq. destruct Hc as [-> | ->]; tauto.
    - by destruct Hc as [-> | ->]. }
  apply replace_csv_suffix. revert Hts. apply string_forallb_impl.
  intros x Hx%stamp_char_plain. apply negb_true_iff, Ascii.eqb_neq. tauto.
Qed.

Lemma is_candidate_snapshot cat filter_name current ts :
  snapshot_name cat filter_name ts <> current ->
  is_candidate (lineage_prefix cat filter_name) current (snapshot_name cat filter_name ts) = true.
Proof.
  intros Hne. unfold is_candidate, snapshot_name, startswith.
  rewrite prefix_app. rewrite <- string_app_assoc, endswith_csv. simpl.
  apply negb_true_iff, String.eqb_neq. by rewrite string_app_assoc.
Qed.

Lemma resolve_previous_snoc prefix current listing file :
  resolve_previous prefix current (listing ++ [file])
  = resolve_step prefix current (resolve_previous prefix current listing) file.
Proof. unfold resolve_previous. by rewrite fold_left_app. Qed.

(** What the loop leaves in [previous_file]: a file of the listing that
    passes the test of the loop and whose timestamp no other such file
    exceeds; nothing when no file passes the test. *)
Lemma resolve_previous_greatest prefix current listing :
  match resolve_previous prefix current listing with
  | Some previous =>
      previous ∈ listing
      /\ is_candidate prefix current previous = true
      /\ forall file, file ∈ listing -> is_candidate prefix current file = true ->
           String.le (file_timestamp prefix file) (file_timestamp prefix previous)
  | None => forall file, file ∈ listing -> is_candidate prefix current file = false
  end.
Proof.
  induction listing as [|file listing IH] using rev_ind.
  { simpl. by intros file ?%elem_of_nil. }
  rewrite resolve_previous_snoc. unfold resolve_step.
  destruct (is_candidate prefix current file) eqn:Hfile.
  - destruct (resolve_previous prefix current listing) as [p|].
    + destruct IH as (Hin & Hp & Hmax).
      destruct (str_gt (file_timestamp prefix file) (file_timestamp prefix p)) eqn:Hgt.
      * split; [set_solver|]. split; [done|].
        intros f [Hf| ->%list_elem_of_singleton]%elem_of_app Hcand; [|done].
        etrans; [by apply Hmax|]. by apply str_gt_true_le.
      * split; [set_solver|]. split; [done|].
        intros f [Hf| ->%list_elem_of_singleton]%elem_of_app Hcand; [by apply Hmax|].
        by apply str_gt_false_le.
    + split; [set_solver|]. split; [done|].
      intros f [Hf| ->%list_elem_of_singleton]%elem_of_app Hcand; [|done].
      rewrite (IH f Hf) in Hcand. done.
  - destruct (resolve_previous prefix current listing) as [p|].
    + destruct IH as (Hin & Hp & Hmax). split; [set_solver|]. split; [done|].
      intros f [Hf| ->%list_elem_of_singleton]%elem_of_app Hcand; [by apply Hmax|].
      congruence.
    + intros f [Hf| ->%list_elem_of_singleton]%elem_of_app; [by apply IH|done].
Qed.

Lemma str_gt_of_le_ne (a b : string) : String.le a b -> a <> b -> str_gt b a = true.
Proof.
  unfold str_gt, String.ltb, String.le, String.leb. intros Hle Hne.
  destruct (String.compare a b) eqn:Hcmp; [|done..].
  by apply String.compare_eq_iff in Hcmp.
Qed.

(** C3 (amended). In a listing where the files that pass the test of the
    loop are snapshots of the lineage, the previous snapshot is the
    lineage's snapshot, other than the one of the current run, with the
    greatest timestamp, and none if there is no other; the listing order
    does not matter; and it is the snapshot with the greatest timestamp
    strictly less than the current one whenever no snapshot of the lineage
    is dated after the current run. *)
Theorem resolve_previous_latest cat filter_name now listing :
  (forall file, file ∈ listing ->
     is_candidate (lineage_prefix cat filter_name)
                  (snapshot_name cat filter_name now) file = true ->
     exists ts, is_timestamp ts = true /\ file = snapshot_name cat filter_name ts) ->
  latest_other cat filter_name now listing
    (resolve_previous (lineage_prefix cat filter_name)
                      (snapshot_name cat filter_name now) listing)
  /\ (forall listing', listing ≡ₚ listing' ->
        resolve_previous (lineage_prefix cat filter_name)
                         (snapshot_name cat filter_name now) listing'
        = resolve_previous (lineage_prefix cat filter_name)
                           (snapshot_name cat filter_name now) listing)
  /\ ((forall ts', snapshot_name cat filter_name ts' ∈ listing -> str_gt ts' now = false) ->
      spec_previous cat filter_name now listing
        (resolve_previous (lineage_prefix cat filter_name)
                          (snapshot_name cat filter_name now) listing)).
Proof.
  intros Hwf.
  set (prefix := lineage_prefix cat filter_name) in *.
  set (current := snapshot_name cat filter_name now) in *.
  assert (forall ts', snapshot_name cat filter_name ts' ∈ listing -> ts' <> now ->
            is_candidate prefix current (snapshot_name cat filter_name ts') = true
            /\ is_timestamp ts' = true) as Hother.
  { intros ts' Hin Hne.
    assert (is_candidate prefix current (snapshot_name cat filter_name ts') = true) as Hc.
    { apply is_candidate_snapshot. by intros ?%snapshot_name_inj. }
    split; [done|]. destruct (Hwf _ Hin Hc) as (ts & Hts & Heq).
    by apply snapshot_name_inj in Heq as ->. }
  assert (latest_other cat filter_name now listing
            (resolve_previous prefix current listing)) as Hchar.
  { pose proof (resolve_previous_greatest prefix current listing) as Hg.
    unfold latest_other.
    destruct (resolve_previous prefix current listing) as [previous|].
    - destruct Hg as (Hin & Hcand & Hmax).
      destruct (Hwf _ Hin Hcand) as (ts & Hts & ->).
      exists ts. repeat split; try done.
      + intros ->. unfold is_candidate in Hcand. fold current in Hcand.
        rewrite String.eqb_refl in Hcand. by rewrite andb_false_r in Hcand.
      + intros ts' Hin' Hne. destruct (Hother _ Hin' Hne) as [Hc' Hts'].
        specialize (Hmax _ Hin' Hc'). unfold prefix in Hmax.
        by rewrite !file_timestamp_snapshot in Hmax.
    - intros ts' Hin'. destruct (decide (ts' = now)) as [|Hne]; [done|].
      destruct (Hother _ Hin' Hne) as [Hc' _]. by rewrite (Hg _ Hin') in Hc'. }
  split; [done|]. split.
  - intros listing' Hperm.
    assert (forall x : string, x ∈ listing <-> x ∈ listing') as Hsame.
    { intros x. by rewrite Hperm. }
    pose proof (resolve_previous_greatest prefix current listing) as Hg.
    pose proof (resolve_previous_greatest prefix current listing') as Hg'.
    destruct (resolve_previous prefix current listing) as [p|],
             (resolve_previous prefix current listing') as [p'|]; [|exfalso..|done].
    + destruct Hg as (Hin & Hcand & Hmax), Hg' as (Hin' & Hcand' & Hmax').
      apply Hsame in Hin'.
      destruct (Hwf _ Hin Hcand) as (ts & Hts & ->).
      destruct (Hwf _ Hin' Hcand') as (ts' & Hts' & ->).
      specialize (Hmax _ Hin' Hcand').
      specialize (Hmax' _ (proj1 (Hsame _) Hin) Hcand).
      unfold prefix in Hmax, Hmax'. rewrite !file_timestamp_snapshot in Hmax, Hmax' by done.
      f_equal. f_equal. by apply (anti_symm String.le).
    + destruct Hg as (Hin & Hcand & _). apply Hsame in Hin.
      by rewrite (Hg' _ Hin) in Hcand.
    + destruct Hg' as (Hin' & Hcand' & _). apply Hsame in Hin'.
      by rewrite (Hg _ Hin') in Hcand'.
  - intros Hnone_later. unfold latest_other in Hchar.
    destruct (resolve_previous prefix current listing) as [previous|]; simpl.
    + destruct Hchar as (ts & -> & Hts & Hin & Hne & Hmax).
      exists ts. repeat split; try done.
      * apply str_gt_of_le_ne; [|done]. by apply str_gt_false_le, Hnone_later.
      * intros ts' Hin' Hlt. apply Hmax; [done|].
        intros ->. by rewrite str_gt_irrefl in Hlt.
    + intros ts' ->%Hchar. apply str_gt_irrefl.
Qed.

End PreviousSnapshot.

(** * Properties of a run *)

Section RunFacts.
Context {FileData : Type} `{!Csv FileData}.
Implicit Types (env : Env FileData) (w : World FileData) (config : Config).
Implicit Types (f : FilterSpec) (cat : Category) (acc : Acc) (r : Report).

Lemma bind_run {A B : Type} (m : M A) (k : A -> M B) w :
  (m ≫= k) w = match m w with
               | (Ok a, w') => k a w'
               | (Raise e, w') => (Raise e, w')
               end.
Proof. reflexivity. Qed.

Lemma ret_run {A : Type} (a : A) w : (mret a : M A) w = (Ok a, w).
Proof. reflexivity. Qed.

(** ** What a computation leaves alone *)

Lemma preserves_ret {A T : Type} (obs : World FileData -> T) (a : A) :
  preserves obs (mret a : M A).
Proof. by intros w. Qed.

Lemma preserves_bind {A B T : Type} (obs : World FileData -> T) (m : M A) (k : A -> M B) :
  preserves obs m -> (forall a, preserves obs (k a)) -> preserves obs (m ≫= k).
Proof.
  intros Hm Hk w. rewrite bind_run. specialize (Hm w).
  destruct (m w) as [[a|e] w']; simpl in *; [|done].
  by rewrite Hk.
Qed.

Lemma preserves_for_each {A B T : Type} (obs : World FileData -> T)
    (body : B -> A -> M B) (l : list A) (b : B) :
  (forall b x, preserves obs (body b x)) -> preserves obs (for_each body l b).
Proof.
  intros Hbody. revert b. induction l as [|x l IH]; intros b; simpl.
  - apply preserves_ret.
  - apply preserves_bind; [apply Hbody|]. intros b'. apply IH.
Qed.

Lemma preserves_try_except_M {A T : Type} (obs : World FileData -> T)
    (m : M A) (h : exn -> M A) :
  preserves obs m -> (forall e, preserves obs (h e)) -> preserves obs (try_except_M m h).
Proof.
  intros Hm Hh w. unfold try_except_M. specialize (Hm w).
  destruct (m w) as [[a|e] w']; simpl in *; [done|].
  by rewrite Hh.
Qed.

Lemma preserves_save {T : Type} (obs : World FileData -> T) env results filename :
  ignores_files obs -> preserves obs (save_results_to_csv env results filename).
Proof.
  intros Hobs w. unfold save_results_to_csv.
  destruct (to_csv_error env filename); simpl; [done|]. apply Hobs.
Qed.

Lemma preserves_listdir {T : Type} (obs : World FileData -> T) env path :
  preserves obs (listdir env path).
Proof. by intros w. Qed.

Lemma preserves_compare {T : Type} (obs : World FileData -> T) current previous_file :
  preserves obs (compare current previous_file).
Proof. by intros w. Qed.

Lemma preserves_send {T : Type} (obs : World FileData -> T) env subj text files :
  ignores_notifier obs -> preserves obs (send_email_notification env subj text files).
Proof.
  intros Hobs w. unfold send_email_notification.
  destruct (negb _); simpl; [apply Hobs|].
  destruct (smtp_error env); simpl; [apply Hobs|].
  destruct (Hobs (add_call (mkNotification subj text files) w)) as [_ ->]. apply Hobs.
Qed.

Create HintDb frame discriminated.
#[local] Hint Resolve preserves_save preserves_listdir preserves_compare preserves_send : frame.

(** Walks through a computation built from [mret], bind, conditionals and
    the primitives above. *)
Ltac frame :=
  repeat first
    [ apply preserves_ret
    | apply preserves_bind; [|intro]
    | solve [auto with frame]
    | match goal with
      | |- preserves _ (match ?x with _ => _ end) => destruct x
      | |- preserves _ (if ?b then _ else _) => destruct b
      end ].

Lemma preserves_lineage_report {T : Type} (obs : World FileData -> T)
    env cat output_dir timestamp f :
  ignores_files obs -> preserves obs (lineage_report env cat output_dir timestamp f).
Proof. intros Hobs. unfold lineage_report. frame. Qed.

Lemma preserves_collect {T : Type} (obs : World FileData -> T)
    env cat output_dir timestamp (filters : list FilterSpec) :
  ignores_files obs -> preserves obs (collect env cat output_dir timestamp filters).
Proof.
  intros Hobs. induction filters as [|f filters IH]; simpl; [apply preserves_ret|].
  apply preserves_bind; [by apply preserves_lineage_report|]. intros r. frame.
Qed.

Lemma preserves_collect_all {T : Type} (obs : World FileData -> T)
    env config output_dir timestamp :
  ignores_files obs -> preserves obs (collect_all env config output_dir timestamp).
Proof.
  intros Hobs. pose proof (preserves_collect obs env) as Hcollect.
  unfold collect_all. frame.
Qed.

Lemma preserves_notify {T : Type} (obs : World FileData -> T) env reports :
  ignores_notifier obs -> preserves obs (notify env reports).
Proof. intros Hobs. unfold notify. frame. Qed.

(** ** The loops of the run, lineage by lineage *)

Lemma output_file_name output_dir cat filter_name timestamp :
  output_dir ++ "/" ++ category_name cat ++ "_" ++ filter_name ++ "_" ++ timestamp ++ ".csv"
  = output_dir ++ "/" ++ snapshot_name cat filter_name timestamp.
Proof.
  unfold snapshot_name, lineage_prefix. f_equal. f_equal.
  by rewrite !string_app_assoc.
Qed.

Lemma accumulate_nothing acc cat filter_name :
  accumulate acc (mkReport cat filter_name NoResults) = acc.
Proof.
  destruct acc as [lines files found]. unfold accumulate, digest, saved_file, yields_new.
  simpl. by rewrite !app_nil_r, orb_false_r.
Qed.

(** The body of the loop is the report of the lineage, folded into the
    variables of the loop. *)
Lemma process_filter_report env cat output_dir timestamp acc f w :
  process_filter env cat output_dir timestamp acc f w
  = (lineage_report env cat output_dir timestamp f ≫= fun r => mret (accumulate acc r)) w.
Proof.
  unfold process_filter, lineage_report, output_file_of, filter_name_of, filters_of.
  rewrite output_file_name.
  destruct (df_empty (search env cat _)) eqn:Hres; simpl.
  { rewrite bind_run, !ret_run. by rewrite accumulate_nothing. }
  rewrite !bind_run. unfold lineage_prefix.
  destruct (save_results_to_csv env _ _ w) as [[[]|e] w1]; [|done].
  rewrite !bind_run.
  destruct (listdir env output_dir w1) as [[listing|e] w2]; [|done].
  destruct (resolve_previous _ _ listing) as [[|c p]|].
  - rewrite !ret_run. unfold accumulate, digest, saved_file, yields_new. simpl.
    by rewrite orb_true_r.
  - rewrite !bind_run. unfold compare. rewrite !ret_run.
    unfold accumulate, digest, saved_file, yields_new. simpl.
    destruct (df_empty (compare_with_previous _ _ _)); simpl.
    + by rewrite app_nil_r, orb_false_r.
    + by rewrite orb_true_r.
  - rewrite !ret_run. unfold accumulate, digest, saved_file, yields_new. simpl.
    by rewrite orb_true_r.
Qed.

Lemma for_each_collect env cat output_dir timestamp (filters : list FilterSpec) acc w :
  for_each (process_filter env cat output_dir timestamp) filters acc w
  = (collect env cat output_dir timestamp filters
       ≫= fun rs => mret (fold_left accumulate rs acc)) w.
Proof.
  revert acc w. induction filters as [|f filters IH]; intros acc w; [done|].
  cbn [for_each collect]. rewrite !bind_run, process_filter_report, bind_run.
  destruct (lineage_report env cat output_dir timestamp f w) as [[r|e] w1]; [|done].
  rewrite ret_run, IH, !bind_run.
  by destruct (collect env cat output_dir timestamp filters w1) as [[rs|e] w2].
Qed.

Lemma fold_accumulate (rs : list Report) acc :
  fold_left accumulate rs acc
  = mkAcc (notification_body acc ++ concat (digest <$> rs))
          (attachment_paths acc ++ concat (saved_file <$> rs))
          (new_items_found acc || existsb yields_new rs).
Proof.
  revert acc. induction rs as [|r rs IH]; intros acc; simpl.
  - destruct acc. simpl. by rewrite !app_nil_r, orb_false_r.
  - rewrite IH. unfold accumulate. simpl. by rewrite <- !app_assoc, orb_assoc.
Qed.

(** The [try] of [run_job] collects the reports of all lineages and then
    notifies. *)
Lemma run_body_reports env config output_dir timestamp w :
  run_body env config output_dir timestamp w
  = (collect_all env config output_dir timestamp ≫= notify env) w.
Proof.
  unfold run_body, collect_all. rewrite !bind_run, for_each_collect, bind_run.
  destruct (collect env Tenders _ _ _ w) as [[rs1|e] w1]; [|done].
  rewrite ret_run, !bind_run, for_each_collect, !bind_run.
  destruct (collect env Projects _ _ _ w1) as [[rs2|e] w2]; [|done].
  rewrite !ret_run, !fold_accumulate. simpl. unfold notify.
  by rewrite !fmap_app, !concat_app, existsb_app.
Qed.

(** ** [run_job] as a whole *)

Lemma run_job_started env w :
  makedirs_error env = None ->
  webdriver_error env = None ->
  run_job env w
  = try_finally
      (try_except_M
         (run_body env (load_config w) (default "output" (output_dir (load_config w)))
                   (now env))
         (fun e => send_email_notification env error_subject (error_body e) None))
      close (started w).
Proof.
  intros Hdir Hdriver. unfold run_job.
  rewrite !bind_run. unfold read_config, os_makedirs. rewrite Hdir, bind_run.
  unfold ADBScraper. by rewrite Hdriver.
Qed.

Lemma run_job_not_started env w e :
  makedirs_error env = Some e
  \/ (makedirs_error env = None /\ webdriver_error env = Some e) ->
  run_job env w = (Raise e, w).
Proof.
  intros [Hdir|[Hdir Hdriver]]; unfold run_job; rewrite !bind_run;
    unfold read_config, os_makedirs; rewrite Hdir; [done|].
  rewrite bind_run. unfold ADBScraper. by rewrite Hdriver.
Qed.

Lemma send_email_notification_call env subj text files w :
  (send_email_notification env subj text files w).1 = Ok tt
  /\ notifier_calls (send_email_notification env subj text files w).2
     = (notifier_calls w ++ [mkNotification subj text files])%list.
Proof.
  unfold send_email_notification.
  destruct (negb _); [done|]. by destruct (smtp_error env).
Qed.

Lemma ignores_files_sessions : ignores_files (@sessions FileData).
Proof. by intros files w. Qed.

Lemma ignores_notifier_sessions : ignores_notifier (@sessions FileData).
Proof. by intros w. Qed.

Lemma ignores_files_config : ignores_files (@config_file FileData).
Proof. by intros files w. Qed.

Lemma ignores_notifier_config : ignores_notifier (@config_file FileData).
Proof. by intros w. Qed.

Lemma ignores_files_calls : ignores_files (@notifier_calls FileData).
Proof. by intros files w. Qed.

Lemma ignores_notifier_fs : ignores_notifier (@fs FileData).
Proof. by intros w. Qed.

Lemma preserves_run_body {T : Type} (obs : World FileData -> T)
    env config output_dir timestamp :
  ignores_files obs -> ignores_notifier obs ->
  preserves obs (run_body env config output_dir timestamp).
Proof.
  intros Hfiles Hnotifier w. rewrite run_body_reports.
  apply (preserves_bind obs); [by apply preserves_collect_all|].
  intros rs. by apply preserves_notify.
Qed.

(** The [try] ... [except] of [run_job] never raises: what escapes the body
    is answered by the failure notification. *)
Lemma preserves_guarded_body {T : Type} (obs : World FileData -> T)
    env config output_dir timestamp :
  ignores_files obs -> ignores_notifier obs ->
  preserves obs
    (try_except_M (run_body env config output_dir timestamp)
       (fun e => send_email_notification env error_subject (error_body e) None)).
Proof.
  intros Hfiles Hnotifier. apply preserves_try_except_M.
  - by apply preserves_run_body.
  - intros e. by apply preserves_send.
Qed.

Lemma guarded_body_returns env config output_dir timestamp w :
  (try_except_M (run_body env config output_dir timestamp)
     (fun e => send_email_notification env error_subject (error_body e) None) w).1 = Ok tt.
Proof.
  unfold try_except_M.
  destruct (run_body env config output_dir timestamp w) as [[[]|e] w1]; [done|].
  apply send_email_notification_call.
Qed.

Lemma run_job_returns env w :
  makedirs_error env = None -> webdriver_error env = None -> (run_job env w).1 = Ok tt.
Proof.
  intros Hdir Hdriver. rewrite (run_job_started env w Hdir Hdriver). unfold try_finally.
  pose proof (guarded_body_returns env (load_config w)
                (default "output" (output_dir (load_config w))) (now env) (started w)) as Hret.
  by destruct (try_except_M _ _ (started w)) as [r w1]; simpl in *; subst r.
Qed.

Lemma lineage_report_skipped env cat output_dir timestamp f w :
  df_empty (search env cat (filters_of f)) = true ->
  lineage_report env cat output_dir timestamp f w
  = (Ok (mkReport cat (filter_name_of f) NoResults), w).
Proof. intros Hres. unfold lineage_report. by rewrite Hres. Qed.



(** A comparison returns rows only with the columns of the current frame. *)
Lemma compare_with_previous_columns (files : gmap string FileData) current previous_file :
  rows (compare_with_previous files current previous_file) <> [] ->
  columns (compare_with_previous files current previous_file) = columns current.
Proof.
  unfold compare_with_previous, compare_body.
  destruct (os_path_exists files previous_file); [|done].
  destruct (match files !! previous_file with
            | Some data => read_csv data
            | None => Raise (OSError previous_file)
            end) as [previous|e]; simpl; [|done].
  destruct (getitem current "Title") as [ts|e]; simpl; [|done].
  by destruct (getitem previous "Title") as [ts'|e].
Qed.

(** The new records a lineage reports are listed in its digest. *)
Lemma lineage_report_lists_new env cat output_dir timestamp f w r w1
    output_file previous_file new_items (row : Row) :
  lineage_report env cat output_dir timestamp f w = (Ok r, w1) ->
  report_outcome r = Compared output_file previous_file new_items ->
  row ∈ rows new_items ->
  yields_new r = true /\ title_line row ∈ digest r.
Proof.
  unfold lineage_report. destruct (df_empty _) eqn:Hres.
  { rewrite ret_run. by intros [= <- _]. }
  rewrite bind_run.
  destruct (save_results_to_csv env _ _ w) as [[[]|e] w2]; [|done].
  rewrite bind_run.
  destruct (listdir env output_dir w2) as [[listing|e] w3]; [|done].
  destruct (resolve_previous _ _ listing) as [[|c p]|];
    rewrite ?bind_run; unfold compare; rewrite ?ret_run; intros [= <- _]; try done.
  simpl. intros [= _ _ <-] Hrow. unfold yields_new, digest. simpl.
  assert (df_empty (compare_with_previous (fs w3) (search env cat (filters_of f))
                      (os_path_join output_dir (String c p))) = false) as ->.
  { unfold df_empty. rewrite compare_with_previous_columns.
    - unfold df_empty in Hres.
      destruct (columns (search env cat (filters_of f))); [done|].
      destruct (rows (compare_with_previous _ _ _)); [|done]. by apply elem_of_nil in Hrow.
    - intros Hnil. rewrite Hnil in Hrow. by apply elem_of_nil in Hrow. }
  split; [done|]. right. apply elem_of_app. left. apply list_elem_of_fmap. by exists row.
Qed.

Lemma collect_lists_new env cat output_dir timestamp (filters : list FilterSpec) w rs w1
    r output_file previous_file new_items (row : Row) :
  collect env cat output_dir timestamp filters w = (Ok rs, w1) ->
  r ∈ rs ->
  report_outcome r = Compared output_file previous_file new_items ->
  row ∈ rows new_items ->
  yields_new r = true /\ title_line row ∈ digest r.
Proof.
  revert w rs w1. induction filters as [|f filters IH]; intros w rs w1; cbn [collect].
  { rewrite ret_run. intros [= <- _] Hin. by apply elem_of_nil in Hin. }
  rewrite bind_run.
  destruct (lineage_report env cat output_dir timestamp f w) as [[r0|e] w2] eqn:Hr; [|done].
  rewrite bind_run.
  destruct (collect env cat output_dir timestamp filters w2) as [[rs'|e] w3] eqn:Hrs; [|done].
  rewrite ret_run. intros [= <- _] [->|Hin]%elem_of_cons Hout Hrow.
  - by eapply lineage_report_lists_new.
  - by eapply IH.
Qed.

(** C4. When all configured filters of both categories have been processed,
    the run has made exactly one notifier call, bundling the digests and the
    snapshot files of all lineages, if some lineage yielded new records, and
    no call if none did; every new record a comparison found makes a
    lineage yield, and has its line in the bundled digest. *)
Theorem run_job_notifies_once env w reports w1 :
  makedirs_error env = None ->
  webdriver_error env = None ->
  collect_all env (load_config w) (default "output" (output_dir (load_config w)))
              (now env) (started w) = (Ok reports, w1) ->
  (run_job env w).1 = Ok tt
  /\ notifier_calls (run_job env w).2
     = (notifier_calls w
        ++ if existsb yields_new reports then [update_notification reports] else [])%list
  /\ (forall r output_file previous_file new_items (row : Row),
        r ∈ reports ->
        report_outcome r = Compared output_file previous_file new_items ->
        row ∈ rows new_items ->
        existsb yields_new reports = true
        /\ title_line row ∈ concat (digest <$> reports)).
Proof.
  intros Hdir Hdriver Hall. split; [by apply run_job_returns|]. split.
  - rewrite (run_job_started env w Hdir Hdriver). unfold try_finally, try_except_M.
    rewrite run_body_reports, bind_run, Hall.
    assert (notifier_calls w1 = notifier_calls w) as Hcalls.
    { pose proof (preserves_collect_all (@notifier_calls FileData) env (load_config w)
                    (default "output" (output_dir (load_config w))) (now env)
                    ignores_files_calls (started w)) as Hkeep.
      by rewrite Hall in Hkeep. }
    unfold notify. destruct (existsb yields_new reports).
    + pose proof (send_email_notification_call env update_subject
                    (join nl (concat (digest <$> reports)))
                    (Some (concat (saved_file <$> reports))) w1) as [Hok Hcall].
      destruct (send_email_notification _ _ _ _ w1) as [res w2]. simpl in *.
      subst res. simpl. by rewrite Hcall, Hcalls.
    + rewrite ret_run. simpl. by rewrite app_nil_r.
  - intros r output_file previous_file new_items row Hin Hout Hrow.
    assert (yields_new r = true /\ title_line row ∈ digest r) as [Hyields Hline].
    { revert Hall. unfold collect_all. rewrite bind_run.
      destruct (collect env Tenders _ _ _ (started w)) as [[rs1|e] w2] eqn:H1; [|done].
      rewrite bind_run.
      destruct (collect env Projects _ _ _ w2) as [[rs2|e] w3] eqn:H2; [|done].
      rewrite ret_run. intros [= <- _].
      apply elem_of_app in Hin as [Hin|Hin].
      - eapply collect_lists_new; [exact H1|done..].
      - eapply collect_lists_new; [exact H2|done..]. }
    split.
    + apply existsb_exists. exists r. split; [|done]. by apply list_elem_of_In.
    + apply list_elem_of_In, in_concat. exists (digest r).
      split; apply list_elem_of_In; [|done]. apply list_elem_of_fmap. by exists r.
Qed.

Lemma run_job_sessions env w : sessions (run_job env w).2 = sessions w.
Proof.
  destruct (makedirs_error env) as [e|] eqn:Hdir.
  { rewrite (run_job_not_started env w e); [done|by left]. }
  destruct (webdriver_error env) as [e|] eqn:Hdriver.
  { rewrite (run_job_not_started env w e); [done|by right]. }
  rewrite (run_job_started env w Hdir Hdriver). unfold try_finally.
  pose proof (preserves_guarded_body (@sessions FileData) env (load_config w)
                (default "output" (output_dir (load_config w))) (now env)
                ignores_files_sessions ignores_notifier_sessions (started w)) as Hkeep.
  destruct (try_except_M _ _ (started w)) as [res w1]. simpl in *.
  by rewrite Hkeep.
Qed.

(** C8. The browser session a run starts is closed when the run returns,
    whether the body of the run succeeded or failed: the number of open
    sessions is what it was, and during the body it was one more; so it is
    when the schedule loop has the control again. *)
Theorem run_job_releases_browser env w :
  sessions (run_job env w).2 = sessions w
  /\ (makedirs_error env = None -> webdriver_error env = None ->
      exists res w1,
        try_except_M
          (run_body env (load_config w) (default "output" (output_dir (load_config w)))
                    (now env))
          (fun e => send_email_notification env error_subject (error_body e) None)
          (started w) = (res, w1)
        /\ sessions w1 = S (sessions w)
        /\ run_job env w = (res, set_sessions (sessions w) w1))
  /\ (forall job,
        sessions (world_of (loop_step (Alive job w) (Tick true env))) = sessions w).
Proof.
  assert (makedirs_error env = None -> webdriver_error env = None ->
      exists res w1,
        try_except_M
          (run_body env (load_config w) (default "output" (output_dir (load_config w)))
                    (now env))
          (fun e => send_email_notification env error_subject (error_body e) None)
          (started w) = (res, w1)
        /\ sessions w1 = S (sessions w)
        /\ run_job env w = (res, set_sessions (sessions w) w1)) as Hstarted.
  { intros Hdir Hdriver. rewrite (run_job_started env w Hdir Hdriver). unfold try_finally.
    pose proof (preserves_guarded_body (@sessions FileData) env (load_config w)
                  (default "output" (output_dir (load_config w))) (now env)
                  ignores_files_sessions ignores_notifier_sessions (started w)) as Hkeep.
    destruct (try_except_M _ _ (started w)) as [res w1]. simpl in Hkeep.
    exists res, w1. split; [done|]. split; [done|].
    unfold close. simpl. by rewrite Hkeep. }
  split; [apply run_job_sessions|]. split; [done|].
  intros job. simpl. unfold run_scheduled.
  pose proof (run_job_sessions env w) as Hsame.
  by destruct (run_job env w) as [[[]|e] w1].
Qed.

Lemma search_failed env cat filters e :
  site env cat filters = Raise e -> search env cat filters = pd_DataFrame.
Proof. intros Hsite. unfold search. by rewrite Hsite. Qed.

(** C5 (amended). In a run whose browser has started: a failure of the
    data source inside a lineage is caught by the scraper, the lineage
    counts as without results and leaves the world as it is, so the run goes
    on; an exception that does escape the lineages aborts the run, which then
    makes exactly one notifier call, the failure notification with the
    description of the error, keeps the files written up to the failure,
    closes the browser and returns; and in both cases the schedule loop goes
    on. *)
Theorem run_job_failure_handling env w :
  makedirs_error env = None ->
  webdriver_error env = None ->
  (forall cat output_dir timestamp f e w',
      site env cat (filters_of f) = Raise e ->
      lineage_report env cat output_dir timestamp f w'
      = (Ok (mkReport cat (filter_name_of f) NoResults), w'))
  /\ (forall e w1,
        collect_all env (load_config w) (default "output" (output_dir (load_config w)))
                    (now env) (started w) = (Raise e, w1) ->
        (run_job env w).1 = Ok tt
        /\ notifier_calls (run_job env w).2
           = (notifier_calls w ++ [mkNotification error_subject (error_body e) None])%list
        /\ fs (run_job env w).2 = fs w1
        /\ sessions (run_job env w).2 = sessions w)
  /\ (forall job, exists w', loop_step (Alive job w) (Tick true env) = Alive job w').
Proof.
  intros Hdir Hdriver. split; [|split].
  - intros cat output_dir timestamp f e w' Hsite.
    apply lineage_report_skipped. by rewrite (search_failed _ _ _ _ Hsite).
  - intros e w1 Hall. split; [by apply run_job_returns|].
    split; [|split; [|apply run_job_sessions]].
    + rewrite (run_job_started env w Hdir Hdriver). unfold try_finally, try_except_M.
      rewrite run_body_reports, bind_run, Hall.
      pose proof (preserves_collect_all (@notifier_calls FileData) env (load_config w)
                    (default "output" (output_dir (load_config w))) (now env)
                    ignores_files_calls (started w)) as Hkeep.
      rewrite Hall in Hkeep. simpl in Hkeep.
      pose proof (send_email_notification_call env error_subject (error_body e) None w1)
        as [Hok Hcall].
      destruct (send_email_notification _ _ _ _ w1) as [res w2]. simpl in *.
      subst res. simpl. by rewrite Hcall, Hkeep.
    + rewrite (run_job_started env w Hdir Hdriver). unfold try_finally, try_except_M.
      rewrite run_body_reports, bind_run, Hall.
      pose proof (preserves_send (@fs FileData) env error_subject (error_body e) None
                    ignores_notifier_fs w1) as Hkeep.
      pose proof (send_email_notification_call env error_subject (error_body e) None w1)
        as [Hok _].
      destruct (send_email_notification _ _ _ _ w1) as [res w2]. simpl in *.
      by subst res.
  - intros job. simpl. unfold run_scheduled.
    pose proof (run_job_returns env w Hdir Hdriver) as Hret.
    destruct (run_job env w) as [[[]|e] w']; [by exists w'|done].
Qed.








(** ** The process *)

Lemma run_job_keeps_config env w : config_file (run_job env w).2 = config_file w.
Proof.
  destruct (makedirs_error env) as [e|] eqn:Hdir.
  { rewrite (run_job_not_started env w e); [done|by left]. }
  destruct (webdriver_error env) as [e|] eqn:Hdriver.
  { rewrite (run_job_not_started env w e); [done|by right]. }
  rewrite (run_job_started env w Hdir Hdriver). unfold try_finally.
  pose proof (preserves_guarded_body (@config_file FileData) env (load_config w)
                (default "output" (output_dir (load_config w))) (now env)
                ignores_files_config ignores_notifier_config (started w)) as Hkeep.
  by destruct (try_except_M _ _ (started w)) as [res w1].
Qed.

Lemma load_config_same w w' : config_file w' = config_file w -> load_config w' = load_config w.
Proof. unfold load_config. by intros ->. Qed.

Lemma run_scheduled_alive env job w job' w' :
  run_scheduled env job w = Alive job' w' ->
  job' = job /\ config_file w' = config_file w.
Proof.
  unfold run_scheduled. pose proof (run_job_keeps_config env w) as Hkeep.
  destruct (run_job env w) as [[[]|e] w1]; [|done]. by intros [= <- <-].
Qed.

Lemma loop_crashed (events : list (Event FileData)) e w :
  fold_left loop_step events (Crashed e w) = Crashed e w.
Proof. by induction events. Qed.

(** The loop keeps the job it was started with, and the configuration file
    as long as nobody rewrites it. *)
Lemma loop_keeps (events : list (Event FileData)) job w job' w' :
  fold_left loop_step events (Alive job w) = Alive job' w' ->
  job' = job
  /\ (Forall (fun ev => forall c, ev <> ConfigEdited c) events ->
      config_file w' = config_file w).
Proof.
  revert w. induction events as [|ev events IH]; intros w; simpl.
  { by intros [= <- <-]. }
  destruct ev as [[] env|c].
  - destruct (run_scheduled env job w) as [job1 w1|e w1] eqn:Hrun.
    + apply run_scheduled_alive in Hrun as [-> Hcfg]. intros [-> Hkeep]%IH.
      split; [done|]. intros [_ Hrest]%Forall_cons. by rewrite Hkeep.
    + by rewrite loop_crashed.
  - intros [-> Hkeep]%IH. split; [done|]. intros [_ Hrest]%Forall_cons. by apply Hkeep.
  - intros [-> Hkeep]%IH. split; [done|]. intros [Hev _]%Forall_cons. by destruct (Hev c).
Qed.

(** C9 (amended). The schedule is read once, at startup, and stays; the
    other settings are read from [config.json] again by every run and every
    notification, so they are those of the startup for as long as the file
    is not rewritten, and those of the rewritten file in the run that
    follows a change. *)
Theorem config_static_unless_edited env (events : list (Event FileData)) w job w' :
  main env events w = Alive job w' ->
  job = setup_schedule w
  /\ (Forall (fun ev => forall c, ev <> ConfigEdited c) events ->
      load_config w' = load_config w)
  /\ (forall c env',
        makedirs_error env' = None -> webdriver_error env' = None ->
        loop_step (loop_step (Alive job w') (ConfigEdited c)) (Tick true env')
        = run_scheduled env' job (set_config_file c w')
        /\ run_job env' (set_config_file c w')
           = try_finally
               (try_except_M
                  (run_body env' (load_config (set_config_file c w'))
                     (default "output" (output_dir (load_config (set_config_file c w'))))
                     (now env'))
                  (fun e => send_email_notification env' error_subject (error_body e) None))
               close (started (set_config_file c w'))).
Proof.
  unfold main, main_start. intros Hmain.
  set (w0 := match config_file w with
             | Missing => set_config_file (Parsed (load_config w)) w
             | _ => w
             end) in *.
  assert (load_config w0 = load_config w) as Hsame.
  { unfold w0, load_config. by destruct (config_file w) eqn:Hfile; simpl; rewrite ?Hfile. }
  destruct (run_scheduled env (setup_schedule w0) w0) as [job1 w1|e w1] eqn:Hrun.
  - apply run_scheduled_alive in Hrun as [-> Hcfg].
    apply loop_keeps in Hmain as [-> Hkeep]. split; [|split].
    + unfold setup_schedule. by rewrite Hsame.
    + intros Hquiet. rewrite <- Hsame. apply load_config_same.
      by rewrite (Hkeep Hquiet).
    + intros c env' Hdir Hdriver. split; [done|]. by apply run_job_started.
  - by rewrite loop_crashed in Hmain.
Qed.

End RunFacts.

(** * The properties on the example data *)

Lemma compare_with_previous_new_titles_witness :
  compare_with_previous baseline_files (snapshot ["X"; "Y"; "Z"]) baseline_file
  = spec_diff (snapshot ["X"; "Y"; "Z"]) (snapshot ["X"; "Y"])
  /\ (forall r : Row,
        r ∈ rows (compare_with_previous baseline_files (snapshot ["X"; "Y"; "Z"])
                    baseline_file)
        <-> r ∈ rows (snapshot ["X"; "Y"; "Z"])
            /\ title r ∉ title <$> rows (snapshot ["X"; "Y"]))
  /\ rows (compare_with_previous baseline_files (snapshot ["X"; "Y"; "Z"]) baseline_file)
     `sublist_of` rows (snapshot ["X"; "Y"; "Z"]).
Proof.
  apply (compare_with_previous_new_titles baseline_files (snapshot ["X"; "Y"; "Z"])
           baseline_file (Table (snapshot ["X"; "Y"])) (snapshot ["X"; "Y"])).
  - reflexivity.
  - reflexivity.
  - left.
  - left.
Defined.

Example compare_with_previous_one_new :
  compare_with_previous baseline_files (snapshot ["X"; "Y"; "Z"]) baseline_file
  = snapshot ["Z"].
Proof. vm_compute. reflexivity. Qed.

Lemma compare_with_previous_first_run_witness :
  compare_with_previous (∅ : gmap string MemFile) (snapshot ["X"; "Y"]) baseline_file
  = snapshot ["X"; "Y"].
Proof.
  apply (compare_with_previous_first_run (∅ : gmap string MemFile) (snapshot ["X"; "Y"])
           baseline_file).
  reflexivity.
Defined.

Lemma compare_with_previous_same_witness :
  rows (compare_with_previous baseline_files (snapshot ["X"; "Y"]) baseline_file) = []
  /\ df_empty (compare_with_previous baseline_files (snapshot ["X"; "Y"]) baseline_file)
     = true.
Proof.
  apply (compare_with_previous_same baseline_files (snapshot ["X"; "Y"]) baseline_file
           (Table (snapshot ["X"; "Y"]))).
  - reflexivity.
  - reflexivity.
Defined.

Lemma compare_with_previous_swallows_errors_witness :
  (exists e, compare_body ({[ baseline_file := Junk ]} : gmap string MemFile)
               (snapshot ["X"]) baseline_file = Raise e)
  /\ compare_with_previous ({[ baseline_file := Junk ]} : gmap string MemFile)
       (snapshot ["X"]) baseline_file = pd_DataFrame
  /\ df_empty (compare_with_previous ({[ baseline_file := Junk ]} : gmap string MemFile)
                 (snapshot ["X"]) baseline_file) = true
  /\ (forall w : World MemFile, fs w = {[ baseline_file := Junk ]} ->
        compare (snapshot ["X"]) baseline_file w = (Ok pd_DataFrame, w)).
Proof.
  apply (compare_with_previous_swallows_errors
           ({[ baseline_file := Junk ]} : gmap string MemFile) (snapshot ["X"])
           baseline_file Junk).
  - reflexivity.
  - left. eexists. reflexivity.
Defined.

Lemma resolve_previous_latest_witness :
  latest_other Tenders "water" "20250103_090000" sample_listing
    (resolve_previous (lineage_prefix Tenders "water")
       (snapshot_name Tenders "water" "20250103_090000") sample_listing)
  /\ (forall listing', sample_listing ≡ₚ listing' ->
        resolve_previous (lineage_prefix Tenders "water")
          (snapshot_name Tenders "water" "20250103_090000") listing'
        = resolve_previous (lineage_prefix Tenders "water")
            (snapshot_name Tenders "water" "20250103_090000") sample_listing)
  /\ ((forall ts', snapshot_name Tenders "water" ts' ∈ sample_listing ->
         str_gt ts' "20250103_090000" = false) ->
      spec_previous Tenders "water" "20250103_090000" sample_listing
        (resolve_previous (lineage_prefix Tenders "water")
           (snapshot_name Tenders "water" "20250103_090000") sample_listing)).
Proof.
  apply (resolve_previous_latest Tenders "water" "20250103_090000" sample_listing).
  intros file Hin Hcandidate. unfold sample_listing in Hin.
  repeat (apply elem_of_cons in Hin as [-> | Hin]);
    try (vm_compute in Hcandidate; discriminate Hcandidate).
  - exists "20250102_090000". split; reflexivity.
  - exists "20250101_090000". split; reflexivity.
  - by apply elem_of_nil in Hin.
Defined.

(** With snapshots at T1 < T2 < T3 and the current run at T3, the snapshot
    at T2 is resolved; with the snapshot of the current run alone, none. *)
Example resolve_previous_second_of_three :
  resolve_previous (lineage_prefix Tenders "water")
    (snapshot_name Tenders "water" "20250103_090000") sample_listing
  = Some "tenders_water_20250102_090000.csv"
  /\ resolve_previous (lineage_prefix Tenders "water")
       (snapshot_name Tenders "water" "20250101_090000")
       ["tenders_water_20250101_090000.csv"]
     = None.
Proof. split; reflexivity. Qed.

(** C3 as stated fails: the loop resolves a snapshot dated after the current
    run, where the greatest timestamp strictly less than the current one
    would give none. *)
Lemma resolve_previous_not_strictly_before :
  resolve_previous (lineage_prefix Tenders "water")
    (snapshot_name Tenders "water" "20250101_090000") skewed_listing
  = Some "tenders_water_20250102_090000.csv"
  /\ ~ spec_previous Tenders "water" "20250101_090000" skewed_listing
        (resolve_previous (lineage_prefix Tenders "water")
           (snapshot_name Tenders "water" "20250101_090000") skewed_listing).
Proof.
  split; [reflexivity|].
  change (resolve_previous _ _ skewed_listing)
    with (Some "tenders_water_20250102_090000.csv").
  intros (ts & Hname & _ & Hbefore & _).
  change "tenders_water_20250102_090000.csv"
    with (snapshot_name Tenders "water" "20250102_090000") in Hname.
  apply snapshot_name_inj in Hname as <-. vm_compute in Hbefore. discriminate Hbefore.
Qed.

(** A file of the lineage "water_supply" passes the test of the lineage
    "water" as well, and its longer remainder compares above any timestamp. *)
Example resolve_previous_foreign_lineage :
  resolve_previous (lineage_prefix Tenders "water")
    (snapshot_name Tenders "water" "20250103_090000")
    ["tenders_water_20250102_090000.csv"; "tenders_water_supply_20240101_090000.csv"]
  = Some "tenders_water_supply_20240101_090000.csv".
Proof. reflexivity. Qed.

Lemma run_job_notifies_once_witness :
  (run_job (next_day ["X"; "Y"; "Z"]) baseline_world).1 = Ok tt
  /\ notifier_calls (run_job (next_day ["X"; "Y"; "Z"]) baseline_world).2
     = [mkNotification update_subject
          (join nl ["Found 1 new tenders for water:"; "- Z"; ""])
          (Some ["output/tenders_water_20250102_090000.csv"])].
Proof.
  destruct (run_job_notifies_once (next_day ["X"; "Y"; "Z"]) baseline_world
              [mkReport Tenders "water"
                 (Compared "output/tenders_water_20250102_090000.csv" baseline_file
                    (snapshot ["Z"]))]
              (collect_all (next_day ["X"; "Y"; "Z"]) (load_config baseline_world) "output"
                 "20250102_090000" (started baseline_world)).2)
    as (Hreturns & Hcalls & _).
  - reflexivity.
  - reflexivity.
  - vm_compute. reflexivity.
  - split; [exact Hreturns|exact Hcalls].
Defined.

(** The snapshot is unchanged: no notifier call. *)
Example run_job_unchanged_silent :
  notifier_calls (run_job (next_day ["X"; "Y"]) baseline_world).2 = [].
Proof. vm_compute. reflexivity. Qed.

Lemma run_job_failure_handling_witness :
  (run_job broken_day three_world).1 = Ok tt
  /\ notifier_calls (run_job broken_day three_world).2
     = [mkNotification error_subject (error_body (OSError "Permission denied")) None]
  /\ fs (run_job broken_day three_world).2
     = fs (collect_all broken_day (load_config three_world) "output" "20250101_090000"
             (started three_world)).2
  /\ sessions (run_job broken_day three_world).2 = 0.
Proof.
  destruct (run_job_failure_handling broken_day three_world eq_refl eq_refl)
    as (_ & Habort & _).
  apply (Habort (OSError "Permission denied")
           (collect_all broken_day (load_config three_world) "output" "20250101_090000"
              (started three_world)).2).
  vm_compute. reflexivity.
Defined.

(** The listing fails in the second of three lineages: the snapshots of the
    first and of the second lineage are on file, the third lineage is not
    reached, and the process is alive after the run. *)
Example run_job_aborted_keeps_files :
  os_path_exists (fs (run_job broken_day three_world).2)
    "output/tenders_one_20250101_090000.csv" = true
  /\ os_path_exists (fs (run_job broken_day three_world).2)
       "output/tenders_two_20250101_090000.csv" = true
  /\ os_path_exists (fs (run_job broken_day three_world).2)
       "output/tenders_three_20250101_090000.csv" = false
  /\ run_scheduled broken_day (mkJob EveryDay "09:00") three_world
     = Alive (mkJob EveryDay "09:00") (run_job broken_day three_world).2.
Proof. vm_compute. repeat split; reflexivity. Qed.

(** C5 as stated fails: the site fails for the second of three lineages,
    yet the run makes no failure notification and goes on to the third
    lineage, whose snapshot it stores. *)
Lemma flaky_source_not_reported :
  site flaky_day Tenders (filters_of (filter_for "two" "Nepal"))
  = Raise (LibraryError "timeout")
  /\ List.filter is_failure (notifier_calls (run_job flaky_day three_world).2) = []
  /\ length (notifier_calls (run_job flaky_day three_world).2) = 1
  /\ os_path_exists (fs (run_job flaky_day three_world).2)
       "output/tenders_one_20250101_090000.csv" = true
  /\ os_path_exists (fs (run_job flaky_day three_world).2)
       "output/tenders_two_20250101_090000.csv" = false
  /\ os_path_exists (fs (run_job flaky_day three_world).2)
       "output/tenders_three_20250101_090000.csv" = true.
Proof. vm_compute. repeat split; reflexivity. Qed.



Lemma config_static_unless_edited_witness :
  mkJob EveryDay "09:00" = setup_schedule baseline_world
  /\ (Forall (fun ev => forall c, ev <> ConfigEdited c) quiet_events ->
      load_config (world_of (main (next_day ["X"; "Y"; "Z"]) quiet_events baseline_world))
      = load_config baseline_world)
  /\ (forall c env',
        makedirs_error env' = None -> webdriver_error env' = None ->
        loop_step
          (loop_step
             (Alive (mkJob EveryDay "09:00")
                (world_of (main (next_day ["X"; "Y"; "Z"]) quiet_events baseline_world)))
             (ConfigEdited c))
          (Tick true env')
        = run_scheduled env' (mkJob EveryDay "09:00")
            (set_config_file c
               (world_of (main (next_day ["X"; "Y"; "Z"]) quiet_events baseline_world)))
        /\ run_job env'
             (set_config_file c
                (world_of (main (next_day ["X"; "Y"; "Z"]) quiet_events baseline_world)))
           = try_finally
               (try_except_M
                  (run_body env'
                     (load_config
                        (set_config_file c
                           (world_of (main (next_day ["X"; "Y"; "Z"]) quiet_events
                                        baseline_world))))
                     (default "output"
                        (output_dir
                           (load_config
                              (set_config_file c
                                 (world_of (main (next_day ["X"; "Y"; "Z"]) quiet_events
                                              baseline_world))))))
                     (now env'))
                  (fun e => send_email_notification env' error_subject (error_body e) None))
               close
               (started
                  (set_config_file c
                     (world_of (main (next_day ["X"; "Y"; "Z"]) quiet_events
                                  baseline_world))))).
Proof.
  apply (config_static_unless_edited (next_day ["X"; "Y"; "Z"]) quiet_events
           baseline_world (mkJob EveryDay "09:00")
           (world_of (main (next_day ["X"; "Y"; "Z"]) quiet_events baseline_world))).
  vm_compute. reflexivity.
Defined.

(** C9 as stated fails: [config.json] is rewritten after startup, and the
    notification of the next run goes to the recipients of the new file, not
    to those loaded at startup. *)
Lemma notification_uses_edited_config :
  recipients (email (load_config baseline_world)) = ["a@example.org"]
  /\ msg_to <$> outbox (world_of (main (next_day ["X"; "Y"; "Z"]) edited_events
                                   baseline_world))
     = ["a@example.org"; "b@example.org"].
Proof. vm_compute. split; reflexivity. Qed.

(** * Further properties of the change detector *)

Section ChangeDetectorMore.
Context {FileData : Type} `{!Csv FileData}.
Implicit Types (files : gmap string FileData) (current previous : DataFrame).

Lemma filter_all {A : Type} (P : A -> Prop) `{!forall x, Decision (P x)} (l : list A) :
  (forall x, x ∈ l -> P x) -> filter P l = l.
Proof.
  induction l as [|x l IH]; intros Hall; [done|].
  rewrite filter_cons_True by (apply Hall; left).
  f_equal. apply IH. intros y Hy. apply Hall. by right.
Qed.

(** The four ways [compare_with_previous] can end. *)
Lemma compare_with_previous_cases files current previous_file :
  compare_with_previous files current previous_file = pd_DataFrame
  \/ (files !! previous_file = None
      /\ compare_with_previous files current previous_file = current)
  \/ (exists data previous,
        files !! previous_file = Some data /\ read_csv data = Ok previous
        /\ "Title" ∈ columns current /\ "Title" ∈ columns previous
        /\ compare_with_previous files current previous_file = spec_diff current previous).
Proof.
  destruct (files !! previous_file) as [data|] eqn:Hfile.
  2:{ right. left. split; [done|]. unfold compare_with_previous, compare_body.
      by rewrite (os_path_exists_false _ _ Hfile). }
  destruct (read_csv data) as [previous|e] eqn:Hread.
  2:{ left. unfold compare_with_previous, compare_body.
      by rewrite (os_path_exists_true _ _ _ Hfile), Hfile, Hread. }
  destruct (decide ("Title" ∈ columns current)) as [Hcur|Hcur].
  2:{ left. unfold compare_with_previous, compare_body.
      rewrite (os_path_exists_true _ _ _ Hfile), Hfile, Hread. simpl.
      by rewrite (getitem_missing _ _ Hcur). }
  destruct (decide ("Title" ∈ columns previous)) as [Hprev|Hprev].
  2:{ left. unfold compare_with_previous, compare_body.
      rewrite (os_path_exists_true _ _ _ Hfile), Hfile, Hread. simpl.
      rewrite (getitem_ok _ _ Hcur). simpl. by rewrite (getitem_missing _ _ Hprev). }
  right. right. exists data, previous. repeat split; try done.
  unfold compare_with_previous.
  by rewrite (compare_body_existing _ _ _ _ _ Hfile Hread Hcur Hprev).
Qed.

(** X1. Whatever the previous file is (absent, unreadable, without Title,
    or a snapshot), the result holds records of the current snapshot only,
    in their order, so never more than the current snapshot has; and it has
    the columns of the current snapshot unless it is the empty frame. *)
Theorem compare_with_previous_selects files current previous_file :
  rows (compare_with_previous files current previous_file) `sublist_of` rows current
  /\ len (compare_with_previous files current previous_file) <= len current
  /\ (compare_with_previous files current previous_file = pd_DataFrame
      \/ columns (compare_with_previous files current previous_file) = columns current).
Proof.
  assert (rows (compare_with_previous files current previous_file)
            `sublist_of` rows current) as Hsub.
  { destruct (compare_with_previous_cases files current previous_file)
      as [->|[[_ ->]|(data & previous & _ & _ & _ & _ & ->)]].
    - apply sublist_nil_l.
    - done.
    - apply sublist_filter. }
  split; [done|]. split; [by apply sublist_length|].
  destruct (compare_with_previous_cases files current previous_file)
    as [->|[[_ ->]|(data & previous & _ & _ & _ & _ & ->)]]; auto.
Qed.

(** X2. Comparing the result once more with the same previous file changes
    nothing. *)
Theorem compare_with_previous_idempotent files current previous_file :
  compare_with_previous files (compare_with_previous files current previous_file)
    previous_file
  = compare_with_previous files current previous_file.
Proof.
  destruct (compare_with_previous_cases files current previous_file)
    as [->|[[Hfile ->]|(data & previous & Hfile & Hread & Hcur & Hprev & ->)]].
  - destruct (compare_with_previous_cases files pd_DataFrame previous_file)
      as [->|[[_ ->]|(data & previous & _ & _ & Hcur & _)]]; [done..|].
    by apply elem_of_nil in Hcur.
  - unfold compare_with_previous, compare_body.
    by rewrite (os_path_exists_false _ _ Hfile).
  - unfold compare_with_previous.
    rewrite (compare_body_existing files (spec_diff current previous) previous_file
               data previous Hfile Hread Hcur Hprev). simpl.
    unfold spec_diff. simpl. f_equal.
    apply filter_all. intros r Hr. by apply list_elem_of_filter in Hr as [Hr _].
Qed.

(** X3. Only the set of Titles of the previous snapshot matters: two
    previous snapshots with the same Titles, in whatever order and number,
    give the same result. *)
Theorem compare_with_previous_title_set files1 files2 current file1 file2
    data1 data2 previous1 previous2 :
  files1 !! file1 = Some data1 -> read_csv data1 = Ok previous1 ->
  files2 !! file2 = Some data2 -> read_csv data2 = Ok previous2 ->
  "Title" ∈ columns previous1 -> "Title" ∈ columns previous2 ->
  (forall t, t ∈ title <$> rows previous1 <-> t ∈ title <$> rows previous2) ->
  compare_with_previous files1 current file1 = compare_with_previous files2 current file2.
Proof.
  intros Hfile1 Hread1 Hfile2 Hread2 Hprev1 Hprev2 Hsame.
  destruct (decide ("Title" ∈ columns current)) as [Hcur|Hcur].
  - unfold compare_with_previous.
    rewrite (compare_body_existing _ _ _ _ _ Hfile1 Hread1 Hcur Hprev1),
            (compare_body_existing _ _ _ _ _ Hfile2 Hread2 Hcur Hprev2). simpl.
    unfold spec_diff. f_equal. apply filter_agree. intros r _. by rewrite Hsame.
  - unfold compare_with_previous, compare_body.
    rewrite (os_path_exists_true _ _ _ Hfile1), (os_path_exists_true _ _ _ Hfile2),
            Hfile1, Hfile2, Hread1, Hread2. simpl.
    by rewrite (getitem_missing _ _ Hcur).
Qed.

End ChangeDetectorMore.

(** * Further properties of the lookup of the previous snapshot *)

Section PreviousSnapshotMore.
Context {FileData : Type} `{!Csv FileData}.
Implicit Types (env : Env FileData) (w : World FileData).

Lemma string_app_nil_r (a : string) : a ++ "" = a.
Proof. induction a as [|x a IH]; [done|]. by rewrite string_app_cons, IH. Qed.

Lemma rev_app_rev_app (a b c : string) :
  String.rev_app (String.rev_app a b) c = String.rev_app b (a ++ c).
Proof.
  revert b c. induction a as [|x a IH]; intros b c; [done|].
  cbn [String.rev_app]. by rewrite IH.
Qed.

Lemma string_rev_involutive (a : string) : String.rev (String.rev a) = a.
Proof. unfold String.rev. rewrite rev_app_rev_app. simpl. apply string_app_nil_r. Qed.

Lemma forallb_rev_app (P : ascii -> bool) (a b : string) :
  string_forallb P (String.rev_app a b) = string_forallb P a && string_forallb P b.
Proof.
  revert b. induction a as [|x a IH]; intros b; [done|].
  cbn [String.rev_app string_forallb]. rewrite IH. cbn [string_forallb].
  by destruct (P x), (string_forallb P a).
Qed.

(** [os.path.basename] goes on after the last slash. *)
Lemma basename_from_last_slash (acc s p : string) :
  basename_from acc (s ++ String "/" p) = basename_from "" p.
Proof.
  revert acc. induction s as [|c s IH]; intros acc.
  - done.
  - rewrite string_app_cons. cbn [basename_from]. by destruct (Ascii.eqb c "/").
Qed.

Lemma basename_from_plain (acc p : string) :
  slash_free p = true -> basename_from acc p = String.rev (String.rev_app p acc).
Proof.
  revert acc. induction p as [|c p IH]; intros acc; [done|].
  unfold slash_free. cbn [string_forallb basename_from String.rev_app].
  intros [Hc Hp]%andb_true_iff. apply negb_true_iff in Hc. rewrite Hc. by apply IH.
Qed.

Lemma basename_of_joined (output_dir p : string) :
  slash_free p = true -> os_path_basename (output_dir ++ "/" ++ p) = p.
Proof.
  intros Hp. unfold os_path_basename.
  change (output_dir ++ "/" ++ p) with (output_dir ++ String "/" p).
  rewrite basename_from_last_slash, (basename_from_plain _ _ Hp).
  apply string_rev_involutive.
Qed.

Lemma basename_from_is_plain (acc p : string) :
  slash_free acc = true -> slash_free (basename_from acc p) = true.
Proof.
  revert acc. induction p as [|c p IH]; intros acc Hacc.
  - cbn [basename_from]. unfold slash_free, String.rev in *.
    by rewrite forallb_rev_app, Hacc.
  - cbn [basename_from]. destruct (Ascii.eqb c "/") eqn:Hc; [by apply IH|].
    apply IH. unfold slash_free in *. cbn [string_forallb]. by rewrite Hc, Hacc.
Qed.

(** A name without a slash, joined to the directory, is not the path of a
    file with another base name. *)
Lemma os_path_join_differs (output_dir p file_name : string) :
  slash_free p = true ->
  p <> os_path_basename (output_dir ++ "/" ++ file_name) ->
  os_path_join output_dir p <> output_dir ++ "/" ++ file_name.
Proof.
  intros Hp Hne Heq. unfold os_path_join in Heq.
  destruct (startswith p "/") eqn:Hstart.
  { destruct p as [|c p]; [done|]. unfold startswith in Hstart.
    destruct (decide (c = "/"%char)) as [->|Hc]; [by vm_compute in Hp|].
    rewrite prefix_head_ne in Hstart; [done|by intros <-]. }
  destruct (String.eqb output_dir "" || endswith output_dir "/").
  - apply (inj (String.app _)) in Heq. subst p. by vm_compute in Hp.
  - apply (inj (String.app _)) in Heq. apply (inj (String.app _)) in Heq. subst p.
    by rewrite basename_of_joined in Hne.
Qed.

(** X4. Whatever the directory holds, the file the loop resolves is in the
    listing, carries the prefix of the lineage and the suffix [.csv], and is
    never the file of the current run; with a non-empty prefix it is a
    non-empty name, so the test [if previous_file:] only fails when nothing
    was resolved; and nothing is resolved only when no file but the current
    one carries the prefix and the suffix. *)
Theorem resolve_previous_picks_candidate (prefix current : string) (listing : list string) :
  match resolve_previous prefix current listing with
  | Some previous =>
      previous ∈ listing
      /\ previous <> current
      /\ startswith previous prefix = true
      /\ endswith previous ".csv" = true
      /\ (prefix <> "" -> previous <> "")
  | None =>
      forall file, file ∈ listing -> startswith file prefix = true ->
        endswith file ".csv" = true -> file = current
  end.
Proof.
  pose proof (resolve_previous_greatest prefix current listing) as Hgreatest.
  destruct (resolve_previous prefix current listing) as [previous|].
  - destruct Hgreatest as (Hin & Hcandidate & _). unfold is_candidate in Hcandidate.
    apply andb_true_iff in Hcandidate as [[Hpre Hsuf]%andb_true_iff Hne].
    apply negb_true_iff, String.eqb_neq in Hne. repeat split; try done.
    intros Hprefix ->. unfold startswith in Hpre. by destruct prefix.
  - intros file Hin Hpre Hsuf. specialize (Hgreatest file Hin).
    unfold is_candidate in Hgreatest. rewrite Hpre, Hsuf in Hgreatest. simpl in Hgreatest.
    by apply negb_false_iff, String.eqb_eq in Hgreatest.
Qed.

(** X5. A lineage is never compared with the snapshot the run has just
    written for it: when the directory listing gives names without a slash,
    the file compared with is not the output file of the lineage. *)
Theorem lineage_never_compares_with_itself env cat output_dir timestamp f w r w1
    output_file previous_file new_items :
  (forall files listing, os_listdir env files output_dir = Ok listing ->
     Forall (fun file => slash_free file = true) listing) ->
  lineage_report env cat output_dir timestamp f w = (Ok r, w1) ->
  report_outcome r = Compared output_file previous_file new_items ->
  output_file = output_file_of output_dir cat f timestamp
  /\ previous_file <> output_file.
Proof.
  intros Hplain. unfold lineage_report. destruct (df_empty _).
  { rewrite ret_run. by intros [= <- _]. }
  rewrite bind_run.
  destruct (save_results_to_csv env _ _ w) as [[[]|e] w2]; [|done].
  rewrite bind_run. unfold listdir.
  destruct (os_listdir env (fs w2) output_dir) as [listing|e] eqn:Hlist; [|done].
  pose proof (resolve_previous_greatest (lineage_prefix cat (filter_name_of f))
                (os_path_basename (output_file_of output_dir cat f timestamp)) listing)
    as Hgreatest.
  destruct (resolve_previous _ _ listing) as [[|c p]|];
    rewrite ?bind_run; unfold compare; rewrite ?ret_run; intros [= <- _]; try done.
  simpl. intros [= <- <- _]. split; [done|].
  destruct Hgreatest as (Hin & Hcandidate & _).
  apply os_path_join_differs.
  - apply Hplain in Hlist. by apply (proj1 (Forall_forall _ _) Hlist).
  - unfold is_candidate in Hcandidate. apply andb_true_iff in Hcandidate as [_ Hne].
    by apply negb_true_iff, String.eqb_neq in Hne.
Qed.

End PreviousSnapshotMore.

(** * Further properties of a run *)

Section RunMore.
Context {FileData : Type} `{!Csv FileData}.
Implicit Types (env : Env FileData) (w : World FileData) (config : Config).
Implicit Types (f : FilterSpec) (cat : Category) (P : World FileData -> Prop).

Lemma keeps_ret {A : Type} P (a : A) : keeps P (mret a : M A).
Proof. by intros w. Qed.

Lemma keeps_bind {A B : Type} P (m : M A) (k : A -> M B) :
  keeps P m -> (forall a, keeps P (k a)) -> keeps P (m ≫= k).
Proof.
  intros Hm Hk w Hw. rewrite bind_run. specialize (Hm w Hw).
  destruct (m w) as [[a|e] w1]; simpl in *; [|done]. by apply Hk.
Qed.

Lemma keeps_save P env results filename :
  (forall w data, P w -> P (set_fs (<[filename := data]> (fs w)) w)) ->
  keeps P (save_results_to_csv env results filename).
Proof.
  intros Hwrite w Hw. unfold save_results_to_csv.
  destruct (to_csv_error env filename); simpl; [done|]. by apply Hwrite.
Qed.

Lemma keeps_lineage_report P env cat output_dir timestamp f :
  (forall w data,
     P w -> P (set_fs (<[output_file_of output_dir cat f timestamp := data]> (fs w)) w)) ->
  keeps P (lineage_report env cat output_dir timestamp f).
Proof.
  intros Hwrite. unfold lineage_report.
  destruct (df_empty _); [apply keeps_ret|].
  apply keeps_bind; [by apply keeps_save|]. intros _.
  apply keeps_bind; [by intros w|]. intros listing.
  destruct (resolve_previous _ _ listing) as [[|c p]|]; try apply keeps_ret.
  apply keeps_bind; [by intros w|]. intros new_items. apply keeps_ret.
Qed.

Lemma keeps_collect P env cat output_dir timestamp (filters : list FilterSpec) :
  (forall f w data, f ∈ filters ->
     P w -> P (set_fs (<[output_file_of output_dir cat f timestamp := data]> (fs w)) w)) ->
  keeps P (collect env cat output_dir timestamp filters).
Proof.
  induction filters as [|f filters IH]; intros Hwrite; cbn [collect]; [apply keeps_ret|].
  apply keeps_bind.
  { apply keeps_lineage_report. intros w data. apply Hwrite. left. }
  intros r. apply keeps_bind; [|intros rs; apply keeps_ret].
  apply IH. intros f' w data Hin. apply Hwrite. by right.
Qed.

(** A property that survives the writes of the run's own files, the calls
    of the notifier and the opening and closing of the browser survives the
    run. *)
Lemma keeps_run_job P env w :
  (forall cat f w' data,
     f ∈ match cat with
         | Tenders => tenders (load_config w)
         | Projects => projects (load_config w)
         end ->
     P w' ->
     P (set_fs (<[output_file_of (default "output" (output_dir (load_config w))) cat f
                    (now env) := data]> (fs w')) w')) ->
  (forall subj text files, keeps P (send_email_notification env subj text files)) ->
  (forall n w', P w' -> P (set_sessions n w')) ->
  P w -> P (run_job env w).2.
Proof.
  intros Hwrite Hsend Hsessions Hw.
  destruct (makedirs_error env) as [e|] eqn:Hdir.
  { rewrite (run_job_not_started env w e); [done|by left]. }
  destruct (webdriver_error env) as [e|] eqn:Hdriver.
  { rewrite (run_job_not_started env w e); [done|by right]. }
  rewrite (run_job_started env w Hdir Hdriver). unfold try_finally.
  set (config := load_config w) in *.
  set (dir := default "output" (output_dir config)) in *.
  assert (keeps P (try_except_M (run_body env config dir (now env))
                     (fun e => send_email_notification env error_subject (error_body e)
                                 None))) as Hbody.
  { intros w0 Hw0. unfold try_except_M. rewrite run_body_reports.
    assert (keeps P (collect_all env config dir (now env))) as Hall.
    { unfold collect_all. apply keeps_bind.
      { apply keeps_collect. intros f w' data. apply (Hwrite Tenders). }
      intros rs. apply keeps_bind; [|intros rs'; apply keeps_ret].
      apply keeps_collect. intros f w' data. apply (Hwrite Projects). }
    rewrite bind_run. specialize (Hall w0 Hw0).
    destruct (collect_all env config dir (now env) w0) as [[reports|e] w1];
      simpl in Hall.
    - unfold notify. destruct (existsb yields_new reports); [|by rewrite ret_run].
      pose proof (Hsend update_subject (join nl (concat (digest <$> reports)))
                    (Some (concat (saved_file <$> reports))) w1 Hall) as Hsent.
      destruct (send_email_notification _ _ _ _ w1) as [[[]|e] w2]; simpl in *; [done|].
      by apply Hsend.
    - by apply Hsend. }
  specialize (Hbody (started w) (Hsessions _ _ Hw)).
  destruct (try_except_M _ _ (started w)) as [res w1]. simpl in *.
  by apply Hsessions.
Qed.

Lemma send_keeps_files env subj text files w :
  fs (send_email_notification env subj text files w).2 = fs w.
Proof. apply (preserves_send (@fs FileData)), ignores_notifier_fs. Qed.

Lemma send_keeps_config env subj text files w :
  config_file (send_email_notification env subj text files w).2 = config_file w.
Proof. apply (preserves_send (@config_file FileData)), ignores_notifier_config. Qed.

(** X6. Snapshots are never changed after the run that wrote them: among
    the CSV files of the output directory, named there without a slash, a
    run leaves every one as it was but those it saves itself, named
    [<category>_<filter-name>_<timestamp>.csv] for a configured filter and
    the timestamp of the run.  The filter names have no slash and the clock
    reads a [strftime] stamp, so that the name the code spells for a saved
    file is the name of that file in the directory.  (The log file of the
    [logging] module, which every run appends to, is no CSV file and not
    part of the files modelled.) *)
Theorem run_job_keeps_other_snapshots env w (file_name : string) :
  Forall (fun f => slash_free (filter_name_of f) = true)
         (tenders (load_config w) ++ projects (load_config w))%list ->
  is_timestamp (now env) = true ->
  slash_free file_name = true ->
  endswith file_name ".csv" = true ->
  file_name ∉ own_snapshots (load_config w) (now env) ->
  fs (run_job env w).2
    !! (default "output" (output_dir (load_config w)) ++ "/" ++ file_name)
  = fs w !! (default "output" (output_dir (load_config w)) ++ "/" ++ file_name).
Proof.
  intros _ _ _ _ Hother.
  set (path := default "output" (output_dir (load_config w)) ++ "/" ++ file_name).
  apply (keeps_run_job (fun w' => fs w' !! path = fs w !! path)); [| | |done].
  - intros cat f w' data Hin Hw'. cbn [fs set_fs]. rewrite lookup_insert_ne; [done|].
    unfold output_file_of, path. intros Hsame%(inj (String.app _))%(inj (String.app _)).
    apply Hother. rewrite <- Hsame. unfold own_snapshots. apply elem_of_app.
    destruct cat; [left|right]; apply list_elem_of_fmap; by exists f.
  - intros subj text files w' Hw'. by rewrite send_keeps_files.
  - by intros n w' Hw'.
Qed.

(** The calls a run adds, by the way it ends. *)
Lemma run_job_calls env w :
  exists calls,
    notifier_calls (run_job env w).2 = (notifier_calls w ++ calls)%list
    /\ length calls <= 1
    /\ Forall (fun n => subject n = update_subject \/ subject n = error_subject) calls
    /\ ((run_job env w).1 <> Ok tt -> calls = []).
Proof.
  destruct (makedirs_error env) as [e|] eqn:Hdir.
  { exists []. rewrite (run_job_not_started env w e) by (by left). simpl.
    rewrite app_nil_r. split; [done|]. split; [lia|]. by split; [constructor|]. }
  destruct (webdriver_error env) as [e|] eqn:Hdriver.
  { exists []. rewrite (run_job_not_started env w e) by (by right). simpl.
    rewrite app_nil_r. split; [done|]. split; [lia|]. by split; [constructor|]. }
  pose proof (run_job_returns env w Hdir Hdriver) as Hreturns.
  rewrite (run_job_started env w Hdir Hdriver) in *. unfold try_finally, try_except_M in *.
  rewrite run_body_reports, bind_run in *.
  pose proof (preserves_collect_all (@notifier_calls FileData) env (load_config w)
                (default "output" (output_dir (load_config w))) (now env)
                ignores_files_calls (started w)) as Hkeep.
  destruct (collect_all env (load_config w) _ (now env) (started w)) as [[reports|e] w1];
    simpl in Hkeep.
  - unfold notify in *. destruct (existsb yields_new reports).
    + pose proof (send_email_notification_call env update_subject
                    (join nl (concat (digest <$> reports)))
                    (Some (concat (saved_file <$> reports))) w1) as [Hok Hcall].
      destruct (send_email_notification _ _ _ _ w1) as [res w2]. simpl in *. subst res.
      exists [mkNotification update_subject (join nl (concat (digest <$> reports)))
                (Some (concat (saved_file <$> reports)))].
      simpl. rewrite Hcall, Hkeep. repeat split; [lia| |done].
      apply Forall_singleton. by left.
    + exists []. rewrite ret_run. simpl. rewrite app_nil_r, Hkeep.
      split; [done|]. split; [lia|]. by split; [constructor|].
  - pose proof (send_email_notification_call env error_subject (error_body e) None w1)
      as [Hok Hcall].
    destruct (send_email_notification _ _ _ _ w1) as [res w2]. simpl in *. subst res.
    exists [mkNotification error_subject (error_body e) None].
    simpl. rewrite Hcall, Hkeep. repeat split; [lia| |done].
    apply Forall_singleton. by right.
Qed.

(** X7. A run makes at most one call of the notifier, after the calls made
    before, and that call is the update or the failure notification; a run
    that raises makes none. *)
Theorem run_job_at_most_one_call env w :
  exists calls,
    notifier_calls (run_job env w).2 = (notifier_calls w ++ calls)%list
    /\ length calls <= 1
    /\ Forall (fun n => subject n = update_subject \/ subject n = error_subject) calls
    /\ ((run_job env w).1 <> Ok tt -> calls = []).
Proof.
  destruct (run_job_calls env w) as (calls & Hcalls & Hone & Hsubjects & Hraised).
  exists calls. by repeat split.
Qed.

(** X8. Delivery follows the configuration file as the run finds it: with
    notifications disabled, or with the mail server failing, a run hands
    over no message; with notifications enabled and the server working,
    every notifier call of the run is handed over as one message with the
    subject and the body of the call, from the configured sender to the
    configured recipients joined by a comma and a space. *)
Theorem run_job_mail_delivery env w :
  (enabled (email (load_config w)) = false \/ is_Some (smtp_error env) ->
   outbox (run_job env w).2 = outbox w)
  /\ (enabled (email (load_config w)) = true -> smtp_error env = None ->
      exists calls messages,
        notifier_calls (run_job env w).2 = (notifier_calls w ++ calls)%list
        /\ outbox (run_job env w).2 = (outbox w ++ messages)%list
        /\ Forall2 (fun n m =>
                      msg_subject m = subject n /\ msg_body m = body n
                      /\ msg_from m = sender_email (email (load_config w))
                      /\ msg_to m = join ", " (recipients (email (load_config w))))
                   calls messages).
Proof.
  split.
  - intros Hsilent.
    enough (config_file (run_job env w).2 = config_file w
            /\ outbox (run_job env w).2 = outbox w) as [_ Hout] by done.
    apply (keeps_run_job
             (fun w' => config_file w' = config_file w /\ outbox w' = outbox w));
      [| | |done].
    + by intros cat f w' data _ Hw'.
    + intros subj text files w' [Hcfg Hout]. split; [by rewrite send_keeps_config|].
      unfold send_email_notification.
      assert (load_config (add_call (mkNotification subj text files) w') = load_config w)
        as -> by (by apply load_config_same).
      destruct Hsilent as [-> | [e ->]]; [done|].
      by destruct (negb _).
    + by intros n w' Hw'.
  - intros Hon Hsmtp.
    enough (config_file (run_job env w).2 = config_file w
            /\ exists calls messages,
                 notifier_calls (run_job env w).2 = (notifier_calls w ++ calls)%list
                 /\ outbox (run_job env w).2 = (outbox w ++ messages)%list
                 /\ Forall2 (fun n m =>
                      msg_subject m = subject n /\ msg_body m = body n
                      /\ msg_from m = sender_email (email (load_config w))
                      /\ msg_to m = join ", " (recipients (email (load_config w))))
                   calls messages) as [_ Hgoal] by done.
    apply (keeps_run_job
             (fun w' => config_file w' = config_file w
                /\ exists calls messages,
                     notifier_calls w' = (notifier_calls w ++ calls)%list
                     /\ outbox w' = (outbox w ++ messages)%list
                     /\ Forall2 (fun n m =>
                          msg_subject m = subject n /\ msg_body m = body n
                          /\ msg_from m = sender_email (email (load_config w))
                          /\ msg_to m = join ", " (recipients (email (load_config w))))
                       calls messages)).
    + by intros cat f w' data _ Hw'.
    + intros subj text files w' (Hcfg & calls & messages & Hcalls & Hout & Hpairs).
      split; [by rewrite send_keeps_config|].
      unfold send_email_notification.
      assert (load_config (add_call (mkNotification subj text files) w') = load_config w)
        as -> by (by apply load_config_same).
      rewrite Hon, Hsmtp. cbn [negb snd notifier_calls outbox add_mail add_call].
      eexists (calls ++ [_])%list, (messages ++ [_])%list.
      rewrite Hcalls, Hout, <- !app_assoc. split; [done|]. split; [done|].
      apply Forall2_app; [done|]. by apply Forall2_cons.
    + by intros n w' Hw'.
    + split; [done|]. exists [], []. by rewrite !app_nil_r.
Qed.

(** X9. Creating the output directory and starting the browser happen
    before the [try] of [run_job]: when either fails, the run raises that
    exception and does nothing else (no failure notification, no file), and
    the exception leaves the schedule loop, so no later run takes place;
    at startup it ends [main] after at most the default configuration file
    was written. *)
Theorem setup_failure_ends_process env (events : list (Event FileData)) w e :
  makedirs_error env = Some e
  \/ (makedirs_error env = None /\ webdriver_error env = Some e) ->
  run_job env w = (Raise e, w)
  /\ (forall job, fold_left loop_step (Tick true env :: events) (Alive job w) = Crashed e w)
  /\ (exists w0, main env events w = Crashed e w0
        /\ fs w0 = fs w /\ notifier_calls w0 = notifier_calls w
        /\ outbox w0 = outbox w /\ sessions w0 = sessions w
        /\ load_config w0 = load_config w).
Proof.
  intros Hfail. split; [by apply run_job_not_started|]. split.
  - intros job. cbn [fold_left loop_step]. unfold run_scheduled.
    rewrite (run_job_not_started env w e Hfail). apply loop_crashed.
  - unfold main, main_start, run_scheduled.
    set (w0 := match config_file w with
               | Missing => set_config_file (Parsed (load_config w)) w
               | _ => w
               end).
    rewrite (run_job_not_started env w0 e Hfail), loop_crashed.
    exists w0. split; [done|]. unfold w0, load_config.
    by destruct (config_file w) eqn:Hfile; simpl; rewrite ?Hfile.
Qed.

Lemma loop_keeps_config_file (events : list (Event FileData)) (p : Process FileData) :
  Forall (fun ev => forall c, ev <> ConfigEdited c) events ->
  config_file (world_of (fold_left loop_step events p)) = config_file (world_of p).
Proof.
  revert p. induction events as [|ev events IH]; intros p Hquiet; [done|].
  apply Forall_cons in Hquiet as [Hev Hquiet]. cbn [fold_left].
  rewrite (IH _ Hquiet). destruct p as [job w|e w]; [|done].
  destruct ev as [[] env|c]; simpl.
  - unfold run_scheduled. pose proof (run_job_keeps_config env w) as Hkeep.
    by destruct (run_job env w) as [[[]|e] w1].
  - done.
  - by destruct (Hev c).
Qed.

(** X10. The process writes the configuration file only at startup and
    only when there is none: as long as nobody else rewrites it, a missing
    file has become the default configuration, and a file that is there,
    readable or not, stays as it is; an unreadable file is never repaired,
    every run falls back to the defaults. *)
Theorem main_writes_config_only_if_missing env (events : list (Event FileData)) w :
  Forall (fun ev => forall c, ev <> ConfigEdited c) events ->
  config_file (world_of (main env events w))
  = match config_file w with
    | Missing => Parsed default_config
    | Unparsable => Unparsable
    | Parsed config => Parsed config
    end
  /\ (config_file w = Unparsable ->
      load_config (world_of (main env events w)) = default_config).
Proof.
  intros Hquiet.
  assert (config_file (world_of (main env events w))
          = match config_file w with
            | Missing => Parsed default_config
            | Unparsable => Unparsable
            | Parsed config => Parsed config
            end) as Hfile.
  { unfold main. rewrite (loop_keeps_config_file _ _ Hquiet).
    unfold main_start, run_scheduled.
    set (w0 := match config_file w with
               | Missing => set_config_file (Parsed (load_config w)) w
               | _ => w
               end).
    pose proof (run_job_keeps_config env w0) as Hkeep.
    assert (config_file (world_of match run_job env w0 with
                                  | (Ok _, w') => Alive (setup_schedule w0) w'
                                  | (Raise e, w') => Crashed e w'
                                  end) = config_file w0) as ->.
    { by destruct (run_job env w0) as [[[]|e] w1]. }
    unfold w0, load_config. by destruct (config_file w) eqn:Hcfg; simpl; rewrite ?Hcfg. }
  split; [done|]. intros Hbad. unfold load_config. by rewrite Hfile, Hbad.
Qed.

End RunMore.

(** * Properties of the scraper *)

Section ScraperFacts.
Implicit Types (cols : list string) (k : string).
Local Open Scope list_scope.

Lemma add_column_elem cols k k' : k' ∈ add_column cols k <-> k' ∈ cols \/ k' = k.
Proof.
  unfold add_column. case_decide as Hk.
  - split; [by left|]. by intros [?| ->].
  - by rewrite elem_of_app, list_elem_of_singleton.
Qed.

Lemma add_column_NoDup cols k : NoDup cols -> NoDup (add_column cols k).
Proof.
  intros Hcols. unfold add_column. case_decide; [done|].
  apply NoDup_app. split; [done|]. split; [|apply NoDup_singleton].
  intros x Hx ->%list_elem_of_singleton. done.
Qed.

Lemma add_columns_elem (ks cols : list string) k' :
  k' ∈ fold_left add_column ks cols <-> k' ∈ cols \/ k' ∈ ks.
Proof.
  revert cols. induction ks as [|k ks IH]; intros cols; simpl.
  { split; [by left|]. by intros [?|?%elem_of_nil]. }
  rewrite IH, add_column_elem, elem_of_cons. tauto.
Qed.

Lemma add_columns_NoDup (ks cols : list string) :
  NoDup cols -> NoDup (fold_left add_column ks cols).
Proof.
  revert cols. induction ks as [|k ks IH]; intros cols Hcols; simpl; [done|].
  by apply IH, add_column_NoDup.
Qed.

Lemma add_columns_known (ks cols : list string) :
  (forall k, k ∈ ks -> k ∈ cols) -> fold_left add_column ks cols = cols.
Proof.
  revert cols. induction ks as [|k ks IH]; intros cols Hknown; simpl; [done|].
  assert (add_column cols k = cols) as ->.
  { unfold add_column. rewrite decide_True; [done|]. apply Hknown. left. }
  apply IH. intros k' Hk'. apply Hknown. by right.
Qed.

Lemma add_columns_fresh (ks cols : list string) :
  NoDup (cols ++ ks) -> fold_left add_column ks cols = cols ++ ks.
Proof.
  revert cols. induction ks as [|k ks IH]; intros cols Hnodup; simpl.
  { by rewrite app_nil_r. }
  assert (add_column cols k = cols ++ [k]) as ->.
  { unfold add_column. rewrite decide_False; [done|].
    apply NoDup_app in Hnodup as (_ & Hdisjoint & _). intros Hin.
    apply (Hdisjoint k Hin). left. }
  rewrite IH; [by rewrite <- app_assoc|]. by rewrite <- app_assoc.
Qed.

Lemma frame_columns_snoc (records : list (dict (option string))) record :
  frame_columns (records ++ [record])
  = fold_left add_column record.*1 (frame_columns records).
Proof. unfold frame_columns. by rewrite fold_left_app. Qed.

(** The columns of a frame are the keys of its records. *)
Lemma frame_columns_elem (records : list (dict (option string))) k :
  k ∈ frame_columns records <-> exists record, record ∈ records /\ k ∈ record.*1.
Proof.
  induction records as [|record records IH] using rev_ind.
  { split; [by intros ?%elem_of_nil|]. by intros (r & ?%elem_of_nil & _). }
  rewrite frame_columns_snoc, add_columns_elem, IH. split.
  - intros [(r & Hr & Hk)|Hk]; [exists r|exists record]; (split; [|done]);
      apply elem_of_app; [by left|by right; apply list_elem_of_singleton].
  - intros (r & [Hr| ->%list_elem_of_singleton]%elem_of_app & Hk); [left|right]; eauto.
Qed.

Lemma frame_columns_NoDup (records : list (dict (option string))) :
  NoDup (frame_columns records).
Proof. unfold frame_columns.
  assert (forall cols, NoDup cols ->
            NoDup (fold_left (fun cols record => fold_left add_column record.*1 cols)
                     records cols)) as Hgen.
  { induction records as [|record records IH]; intros cols Hcols; simpl; [done|].
    by apply IH, add_columns_NoDup. }
  apply Hgen, NoDup_nil_2.
Qed.

Lemma frame_columns_known (records : list (dict (option string))) cols :
  Forall (fun record => forall k, k ∈ record.*1 -> k ∈ cols) records ->
  fold_left (fun cols record => fold_left add_column record.*1 cols) records cols = cols.
Proof.
  induction 1 as [|record records Hrecord _ IH]; simpl; [done|].
  by rewrite add_columns_known.
Qed.

(** Records that all have the keys [keys], in that order: the columns are
    [keys]. *)
Lemma frame_columns_uniform (records : list (dict (option string))) (keys : list string) :
  NoDup keys -> records <> [] ->
  Forall (fun record => record.*1 = keys) records ->
  frame_columns records = keys.
Proof.
  intros Hkeys Hsome Hall. destruct records as [|record records]; [done|].
  apply Forall_cons in Hall as [Hrecord Hall]. unfold frame_columns. simpl.
  rewrite Hrecord, (add_columns_fresh keys []) by done. simpl.
  apply frame_columns_known. eapply Forall_impl; [exact Hall|].
  intros r Hr k. by rewrite Hr.
Qed.

Section Dict.
Context {V : Type}.
Implicit Types (d : dict V) (v : V).

Lemma dict_set_keys d k v : (dict_set d k v).*1 = add_column d.*1 k.
Proof.
  induction d as [|[k' v'] d IH]; [done|]. cbn [dict_set].
  destruct (String.eqb_spec k' k) as [->|Hne]; cbn [fmap list_fmap fst].
  - unfold add_column. rewrite decide_True; [done|left].
  - fold (fmap (M:=list) (@fst string V)). rewrite IH. unfold add_column.
    destruct (decide (k ∈ d.*1)) as [Hin|Hin].
    + rewrite decide_True; [done|by right].
    + rewrite decide_False; [done|]. by intros [?|?]%elem_of_cons.
Qed.

Lemma dict_get_set d k v k' :
  dict_get (dict_set d k v) k' = if decide (k = k') then Some v else dict_get d k'.
Proof.
  induction d as [|[k0 v0] d IH]; cbn [dict_set dict_get].
  - destruct (String.eqb_spec k k'); by case_decide.
  - destruct (String.eqb_spec k0 k) as [->|Hne]; cbn [dict_get].
    + destruct (String.eqb_spec k k'); by case_decide.
    + destruct (String.eqb_spec k0 k') as [->|Hne']; [|done].
      by rewrite decide_False.
Qed.

Lemma dict_get_None d k : k ∉ d.*1 -> dict_get d k = None.
Proof.
  induction d as [|[k' v'] d IH]; [done|]. cbn [dict_get fmap list_fmap fst].
  fold (fmap (M:=list) (@fst string V)). intros Hnot.
  destruct (String.eqb_spec k' k) as [->|Hne]; [by destruct Hnot; left|].
  apply IH. intros Hin. apply Hnot. by right.
Qed.

Lemma dict_get_Some_key d k v : dict_get d k = Some v -> k ∈ d.*1.
Proof.
  intros Hget. destruct (decide (k ∈ d.*1)) as [|Hnot]; [done|].
  by rewrite (dict_get_None _ _ Hnot) in Hget.
Qed.

Lemma dict_set_NoDup d k v : NoDup d.*1 -> NoDup (dict_set d k v).*1.
Proof. rewrite dict_set_keys. apply add_column_NoDup. Qed.

Lemma dict_update_NoDup d (other : dict V) : NoDup d.*1 -> NoDup (dict_update d other).*1.
Proof.
  unfold dict_update. revert d. induction other as [|[k v] other IH]; intros d Hd; [done|].
  simpl. by apply IH, dict_set_NoDup.
Qed.

(** In [{**d, **other}] the value of [other] wins. *)
Lemma dict_get_update d (other : dict V) k :
  NoDup other.*1 ->
  dict_get (dict_update d other) k
  = match dict_get other k with
    | Some v => Some v
    | None => dict_get d k
    end.
Proof.
  unfold dict_update. revert d. induction other as [|[k' v'] other IH]; intros d Hother.
  { done. }
  cbn [fold_left fst snd dict_get]. cbn [fmap list_fmap fst] in Hother.
  fold (fmap (M:=list) (@fst string V)) in Hother.
  apply NoDup_cons in Hother as [Hfresh Hother]. rewrite (IH _ Hother).
  destruct (String.eqb_spec k' k) as [->|Hne].
  - rewrite (dict_get_None _ _ Hfresh), dict_get_set. by rewrite decide_True.
  - rewrite dict_get_set. by rewrite decide_False.
Qed.

End Dict.

Lemma add_columns_prefix (ks cols : list string) :
  exists more, fold_left add_column ks cols = cols ++ more.
Proof.
  revert cols. induction ks as [|k ks IH]; intros cols; simpl.
  { exists []. by rewrite app_nil_r. }
  unfold add_column at 2. case_decide; [apply IH|].
  destruct (IH (cols ++ [k])) as [more Hmore]. exists ([k] ++ more).
  by rewrite Hmore, <- app_assoc.
Qed.

Lemma frame_fold_prefix (records : list (dict (option string))) cols :
  exists more,
    fold_left (fun cols record => fold_left add_column record.*1 cols) records cols
    = cols ++ more.
Proof.
  revert cols. induction records as [|record records IH]; intros cols; simpl.
  { exists []. by rewrite app_nil_r. }
  destruct (add_columns_prefix record.*1 cols) as [more1 ->].
  destruct (IH (cols ++ more1)) as [more2 ->]. exists (more1 ++ more2).
  by rewrite <- app_assoc.
Qed.

Lemma dict_update_prefix {V : Type} (d other : dict V) :
  exists more, (dict_update d other).*1 = d.*1 ++ more.
Proof.
  unfold dict_update. revert d. induction other as [|[k v] other IH]; intros d; simpl.
  { exists []. by rewrite app_nil_r. }
  destruct (IH (dict_set d k v)) as [more ->]. rewrite dict_set_keys.
  unfold add_column. case_decide; [by eauto|]. exists ([k] ++ more).
  by rewrite <- app_assoc.
Qed.

Lemma to_row_cons_Some k (x : string) (record : dict (option string)) :
  to_row ((k, Some x) :: record) = <[k := x]> (to_row record).
Proof. reflexivity. Qed.

Lemma to_row_cons_None k (record : dict (option string)) :
  to_row ((k, None) :: record) = to_row record.
Proof. reflexivity. Qed.

Lemma to_row_lookup (record : dict (option string)) k :
  NoDup record.*1 ->
  to_row record !! k = match dict_get record k with
                       | Some cell => cell
                       | None => None
                       end.
Proof.
  induction record as [|[k' [x|]] record IH]; intros Hkeys.
  - done.
  - rewrite to_row_cons_Some. cbn [dict_get].
    apply NoDup_cons in Hkeys as [Hfresh Hkeys].
    destruct (String.eqb_spec k' k) as [->|Hne].
    + apply lookup_insert_eq.
    + etrans; [by apply lookup_insert_ne|]. by apply IH.
  - rewrite to_row_cons_None. cbn [dict_get].
    apply NoDup_cons in Hkeys as [Hfresh Hkeys].
    destruct (String.eqb_spec k' k) as [->|Hne]; [|by apply IH].
    simpl in Hfresh. rewrite (IH Hkeys). by rewrite (dict_get_None _ _ Hfresh).
Qed.

Lemma dict_get_Some_cells (d : dict string) k :
  dict_get (prod_map id Some <$> d) k = Some <$> dict_get d k.
Proof.
  induction d as [|[k' v'] d IH]; [done|]. cbn [fmap list_fmap prod_map dict_get id fst snd].
  destruct (String.eqb k' k); [done|]. apply IH.
Qed.

Lemma dict_keys_Some_cells (d : dict string) : (prod_map id Some <$> d).*1 = d.*1.
Proof. induction d as [|[k' v'] d IH]; [done|]. by rewrite !fmap_cons, IH. Qed.

Lemma parse_metadata_NoDup (texts : list string) : NoDup (parse_metadata texts).*1.
Proof.
  unfold parse_metadata.
  assert (forall d : dict string, NoDup d.*1 ->
            NoDup (fold_left (fun metadata text =>
                                match split_colon (strip text) with
                                | Some (key, value) =>
                                    dict_set metadata (strip key) (strip value)
                                | None => metadata
                                end) texts d).*1) as Hgen.
  { induction texts as [|text texts IH]; intros d Hd; simpl; [done|].
    apply IH. destruct (split_colon (strip text)) as [[key value]|]; [|done].
    by apply dict_set_NoDup. }
  apply Hgen, NoDup_nil_2.
Qed.

Lemma records_of_elem {A : Type} (record : A -> result (dict (option string)))
    (items : list A) r :
  r ∈ records_of record items <-> exists item, item ∈ items /\ record item = Ok r.
Proof.
  unfold records_of. rewrite list_elem_of_omap. split.
  - intros (item & Hin & Hr). exists item. split; [done|].
    destruct (record item); by simplify_eq.
  - intros (item & Hin & Hr). exists item. by rewrite Hr.
Qed.

Lemma records_of_length {A : Type} (record : A -> result (dict (option string)))
    (P : A -> Prop) `{!forall item, Decision (P item)} (items : list A) :
  (forall item, P item <-> exists r, record item = Ok r) ->
  length (records_of record items) = length (filter P items).
Proof.
  intros Hok. induction items as [|item items IH]; [done|].
  unfold records_of in *. cbn [omap list_omap]. rewrite filter_cons.
  destruct (record item) as [r|e] eqn:Hr.
  - rewrite decide_True by (apply Hok; eauto). simpl. by rewrite IH.
  - rewrite decide_False; [done|]. intros [r' Hr']%Hok. by rewrite Hr in Hr'.
Qed.

Lemma tender_record_ok (item : TenderItem) record :
  tender_record item = Ok record ->
  exists link,
    head (tender_title_links item) = Some link
    /\ NoDup record.*1
    /\ (forall k,
          dict_get record k
          = match dict_get (parse_metadata (tender_metadata item)) k with
            | Some value => Some (Some value)
            | None =>
                dict_get [("Title", Some (strip (link_text link)));
                          ("Link", link_href link);
                          ("Status",
                           Some (first_text "Unknown" (tender_status item)))] k
            end)
    /\ (exists more, record.*1 = "Title" :: "Link" :: "Status" :: more).
Proof.
  unfold tender_record. destruct (tender_title_links item) as [|link links]; [done|].
  simpl. intros [= <-]. exists link. split; [done|].
  set (metadata := parse_metadata (tender_metadata item)).
  set (base := [("Title", Some (strip (link_text link))); ("Link", link_href link);
                ("Status", Some (first_text "Unknown" (tender_status item)))]).
  split; [|split].
  - apply dict_update_NoDup. apply (bool_decide_unpack _). by vm_compute.
  - intros k. rewrite dict_get_update.
    + rewrite dict_get_Some_cells. by destruct (dict_get metadata k).
    + rewrite dict_keys_Some_cells. apply parse_metadata_NoDup.
  - destruct (dict_update_prefix base (prod_map id Some <$> metadata)) as [more Hmore].
    exists more. by rewrite Hmore.
Qed.

Lemma tender_record_cells (item : TenderItem) record :
  tender_record item = Ok record ->
  is_Some (to_row record !! "Title") /\ is_Some (to_row record !! "Status").
Proof.
  intros (link & _ & Hkeys & Hget & _)%tender_record_ok.
  split; rewrite (to_row_lookup _ _ Hkeys), Hget;
    by destruct (dict_get (parse_metadata (tender_metadata item)) _).
Qed.

Lemma tender_record_raises (item : TenderItem) :
  is_Some (head (tender_title_links item)) <-> exists record, tender_record item = Ok record.
Proof.
  unfold tender_record. destruct (tender_title_links item) as [|link links]; simpl.
  - split; [by intros ?%is_Some_None|by intros [? ?]].
  - split; eauto.
Qed.

(** X11. An item without a link in its heading yields no record.  The
    record of any other item has the keys Title, Link and Status and then
    the metadata keys, each once; a metadata line "key: value" sets that
    key, the last line for a key wins, and it also replaces a Title, Link or
    Status of the same name; so every record has a Title and a Status
    cell. *)
Theorem tender_record_fields (item : TenderItem) :
  match tender_record item with
  | Raise _ => tender_title_links item = []
  | Ok record =>
      exists link,
        head (tender_title_links item) = Some link
        /\ NoDup record.*1
        /\ (forall k,
              dict_get record k
              = match dict_get (parse_metadata (tender_metadata item)) k with
                | Some value => Some (Some value)
                | None =>
                    dict_get [("Title", Some (strip (link_text link)));
                              ("Link", link_href link);
                              ("Status",
                               Some (first_text "Unknown" (tender_status item)))] k
                end)
        /\ is_Some (to_row record !! "Title")
        /\ is_Some (to_row record !! "Status")
  end.
Proof.
  destruct (tender_record item) as [record|e] eqn:Hrecord.
  - destruct (tender_record_ok _ _ Hrecord) as (link & Hlink & Hkeys & Hget & _).
    destruct (tender_record_cells _ _ Hrecord) as [Htitle Hstatus].
    by exists link.
  - unfold tender_record in Hrecord. by destruct (tender_title_links item).
Qed.

(** The cells of the rows of a frame lie in its columns. *)
Lemma frame_rows_in_columns (records : list (dict (option string))) record k :
  record ∈ records -> NoDup record.*1 -> is_Some (to_row record !! k) ->
  k ∈ frame_columns records.
Proof.
  intros Hin Hkeys Hcell. apply frame_columns_elem. exists record. split; [done|].
  rewrite (to_row_lookup _ _ Hkeys) in Hcell.
  destruct (dict_get record k) as [cell|] eqn:Hget; [|by apply is_Some_None in Hcell].
  by eapply dict_get_Some_key.
Qed.

Lemma frame_columns_prefix (record : dict (option string)) records :
  NoDup record.*1 ->
  exists more, frame_columns (record :: records) = record.*1 ++ more.
Proof.
  intros Hkeys. unfold frame_columns. simpl.
  rewrite (add_columns_fresh record.*1 []) by done. simpl. apply frame_fold_prefix.
Qed.

(** X12. [_extract_tender_results] gives one row for each item that has a
    link in its heading, in the order of the page; the columns are distinct,
    every cell of a row lies in a column, every row has a Title and a Status
    cell; with no such item the frame is [pd.DataFrame([])], without
    columns, and otherwise the columns begin with Title, Link, Status. *)
Theorem extract_tender_results_frame (page : Page) :
  let results := _extract_tender_results page in
  len results
  = length (filter (fun item => is_Some (head (tender_title_links item)))
                   (tender_items page))
  /\ NoDup (columns results)
  /\ Forall (fun r : Row => is_Some (title r) /\ is_Some (r !! "Status")
                            /\ forall k, is_Some (r !! k) -> k ∈ columns results)
            (rows results)
  /\ match rows results with
     | [] => results = pd_DataFrame
     | _ :: _ => exists more, columns results = "Title" :: "Link" :: "Status" :: more
     end.
Proof.
  unfold _extract_tender_results, pd_DataFrame_of, len. simpl.
  split; [|split; [|split]].
  - rewrite length_fmap. apply records_of_length. apply tender_record_raises.
  - apply frame_columns_NoDup.
  - apply Forall_fmap, Forall_forall. intros record Hin. simpl.
    pose proof Hin as (item & _ & Hrecord)%records_of_elem.
    destruct (tender_record_cells _ _ Hrecord) as [Htitle Hstatus].
    destruct (tender_record_ok _ _ Hrecord) as (_ & _ & Hkeys & _).
    split; [done|]. split; [done|]. intros k. by apply frame_rows_in_columns.
  - destruct (records_of tender_record (tender_items page)) as [|record records] eqn:Hrecords.
    { done. }
    assert (record ∈ records_of tender_record (tender_items page)) as Hin.
    { rewrite Hrecords. left. }
    apply records_of_elem in Hin as (item & _ & Hrecord).
    destruct (tender_record_ok _ _ Hrecord) as (_ & _ & Hkeys & _ & more & Hmore).
    destruct (frame_columns_prefix record records Hkeys) as [more' Hcols].
    simpl. exists (more ++ more'). by rewrite Hcols, Hmore.
Qed.

Lemma project_record_ok (item : ProjectItem) record :
  project_record item = Ok record <->
  exists link project_id,
    head (project_title_links item) = Some link
    /\ head (project_ids item) = Some project_id
    /\ record = [("Title", Some (strip (link_text link))); ("Link", link_href link);
                 ("Project Details", Some (strip project_id));
                 ("Status", Some (first_text "Unknown" (project_status item)));
                 ("Approval Year", Some (first_text "Unknown" (project_years item)))].
Proof.
  unfold project_record.
  destruct (project_title_links item) as [|link links],
           (project_ids item) as [|project_id ids]; simpl.
  - split; [done|]. by intros (? & ? & ? & _).
  - split; [done|]. by intros (? & ? & ? & _).
  - split; [done|]. by intros (? & ? & _ & ? & _).
  - split.
    + intros [= <-]. by exists link, project_id.
    + by intros (? & ? & [= <-] & [= <-] & ->).
Qed.

Lemma project_record_raises (item : ProjectItem) :
  is_Some (head (project_title_links item)) /\ is_Some (head (project_ids item))
  <-> exists record, project_record item = Ok record.
Proof.
  split.
  - intros [[link Hlink] [project_id Hid]]. eexists. apply project_record_ok.
    by exists link, project_id.
  - intros [record (link & project_id & -> & -> & _)%project_record_ok]. eauto.
Qed.

Lemma project_record_keys (item : ProjectItem) record :
  project_record item = Ok record ->
  record.*1 = ["Title"; "Link"; "Project Details"; "Status"; "Approval Year"].
Proof. by intros (link & project_id & _ & _ & ->)%project_record_ok. Qed.

Lemma project_record_cells (item : ProjectItem) record :
  project_record item = Ok record ->
  is_Some (to_row record !! "Title") /\ is_Some (to_row record !! "Project Details")
  /\ is_Some (to_row record !! "Status") /\ is_Some (to_row record !! "Approval Year").
Proof.
  intros Hrecord. pose proof (project_record_keys _ _ Hrecord) as Hkeys.
  assert (NoDup record.*1) as Hnodup.
  { rewrite Hkeys. apply (bool_decide_unpack _). by vm_compute. }
  apply project_record_ok in Hrecord as (link & project_id & _ & _ & ->).
  by repeat split; rewrite (to_row_lookup _ _ Hnodup).
Qed.

(** X13. [_extract_project_results] gives one row for each item that has
    both a link in its heading and a [div.project-id], in the order of the
    page; every row has a Title, a Project Details, a Status and an Approval
    Year cell; with no such item the frame is [pd.DataFrame([])], without
    columns, and otherwise the columns are exactly the five keys of the
    record, in their order. *)
Theorem extract_project_results_frame (page : Page) :
  let results := _extract_project_results page in
  len results
  = length (filter (fun item => is_Some (head (project_title_links item))
                                 /\ is_Some (head (project_ids item)))
                   (project_items page))
  /\ Forall (fun r : Row => is_Some (title r) /\ is_Some (r !! "Project Details")
                            /\ is_Some (r !! "Status")
                            /\ is_Some (r !! "Approval Year"))
            (rows results)
  /\ match rows results with
     | [] => results = pd_DataFrame
     | _ :: _ =>
         columns results = ["Title"; "Link"; "Project Details"; "Status"; "Approval Year"]
     end.
Proof.
  unfold _extract_project_results, pd_DataFrame_of, len. simpl.
  split; [|split].
  - rewrite length_fmap. apply records_of_length. apply project_record_raises.
  - apply Forall_fmap, Forall_forall. intros record (item & _ & Hrecord)%records_of_elem.
    simpl. by apply (project_record_cells item).
  - destruct (records_of project_record (project_items page)) as [|record records] eqn:Hrecords.
    { done. }
    simpl. apply frame_columns_uniform; [|done|].
    + apply (bool_decide_unpack _). by vm_compute.
    + rewrite <- Hrecords. apply Forall_forall.
      intros r (item & _ & Hrecord)%records_of_elem. by apply (project_record_keys item).
Qed.

Lemma tender_records_listed (items : list TenderItem) :
  Forall is_listed (records_of tender_record items).
Proof.
  apply Forall_forall. intros record (item & _ & Hrecord)%records_of_elem.
  destruct (tender_record_cells _ _ Hrecord) as [Htitle Hstatus].
  by destruct (tender_record_ok _ _ Hrecord) as (_ & _ & Hkeys & _).
Qed.

Lemma project_records_listed (items : list ProjectItem) :
  Forall is_listed (records_of project_record items).
Proof.
  apply Forall_forall. intros record (item & _ & Hrecord)%records_of_elem.
  destruct (project_record_cells _ _ Hrecord) as (Htitle & _ & Hstatus & _).
  split; [|done]. rewrite (project_record_keys _ _ Hrecord).
  apply (bool_decide_unpack _). by vm_compute.
Qed.

Lemma filter_status_ok (results : DataFrame) (status : option string) :
  "Status" ∈ columns results ->
  filter_status results status
  = Ok (mkDataFrame (columns results)
          (filter (fun r : Row => is_Some status /\ r !! "Status" = status)
                  (rows results))).
Proof. intros Hcol. unfold filter_status. by rewrite (getitem_ok _ _ Hcol). Qed.

(** The selection by status of a frame of listed records: the rows whose
    Status cell is the status asked for; of the frame without columns, the
    [KeyError] is caught and the result is the same. *)
Lemma status_selection (records : list (dict (option string))) (status : option string) :
  Forall is_listed records ->
  try_except (filter_status (pd_DataFrame_of records) status) (fun _ => pd_DataFrame)
  = mkDataFrame (frame_columns records)
      (filter (fun r : Row => r !! "Status" = status) (to_row <$> records)).
Proof.
  intros Hlisted. destruct records as [|record records]; [done|].
  assert ("Status" ∈ frame_columns (record :: records)) as Hcol.
  { apply Forall_cons in Hlisted as [(Hkeys & _ & Hstatus) _].
    apply (frame_rows_in_columns _ record); [left|done..]. }
  rewrite filter_status_ok by done. cbn [try_except pd_DataFrame_of columns rows].
  f_equal. apply filter_agree. intros r (rec & -> & Hin)%list_elem_of_fmap.
  rewrite Forall_forall in Hlisted. destruct (Hlisted _ Hin) as (_ & _ & [x Hx]).
  split; [by intros [_ ?]|]. intros Heq. split; [|done]. rewrite <- Heq, Hx. eauto.
Qed.

Lemma selection_titled (records : list (dict (option string))) (status : option string) :
  Forall is_listed records ->
  Forall (fun r : Row => is_Some (title r) /\ r !! "Status" = status)
         (filter (fun r : Row => r !! "Status" = status) (to_row <$> records)).
Proof.
  intros Hlisted. apply Forall_forall.
  intros r [Hstatus (rec & -> & Hin)%list_elem_of_fmap]%list_elem_of_filter.
  rewrite Forall_forall in Hlisted. by destruct (Hlisted _ Hin) as (_ & ? & _).
Qed.

Lemma selection_columns (records : list (dict (option string))) (status : option string) :
  filter (fun r : Row => r !! "Status" = status) (to_row <$> records) <> [] ->
  Forall is_listed records ->
  "Title" ∈ frame_columns records /\ "Status" ∈ frame_columns records
  /\ is_Some status.
Proof.
  intros Hrows Hlisted.
  destruct (filter _ _) as [|r rs] eqn:Hfilter; [done|].
  assert (r ∈ filter (fun r : Row => r !! "Status" = status) (to_row <$> records))
    as [Hstatus (rec & -> & Hin)%list_elem_of_fmap]%list_elem_of_filter.
  { rewrite Hfilter. left. }
  rewrite Forall_forall in Hlisted. destruct (Hlisted _ Hin) as (Hkeys & Htitle & Hcell).
  split; [by apply (frame_rows_in_columns _ rec)|].
  split; [by apply (frame_rows_in_columns _ rec)|]. by rewrite <- Hstatus.
Qed.

Lemma df_empty_false df :
  df_empty df = false -> columns df <> [] /\ rows df <> [].
Proof. unfold df_empty. by destruct (columns df), (rows df). Qed.

(** What a search of the scraper returns, for either category. *)
Lemma scraped_search (page : Page) (records : list (dict (option string)))
    (status : option string) :
  Forall is_listed records ->
  let results :=
    try_except (_ ← raise_if (get_error page); _ ← raise_if (wait_error page);
                filter_status (pd_DataFrame_of records) status)
               (fun _ => pd_DataFrame) in
  results = match get_error page, wait_error page with
            | None, None =>
                mkDataFrame (frame_columns records)
                  (filter (fun r : Row => r !! "Status" = status) (to_row <$> records))
            | _, _ => pd_DataFrame
            end
  /\ Forall (fun r : Row => is_Some (title r) /\ r !! "Status" = status) (rows results)
  /\ (df_empty results = false ->
      "Title" ∈ columns results /\ "Status" ∈ columns results /\ is_Some status).
Proof.
  intros Hlisted. destruct (get_error page) as [e|]; [by repeat split|].
  destruct (wait_error page) as [e|]; [by repeat split|]. simpl.
  rewrite (status_selection records status Hlisted). simpl.
  split; [done|]. split; [by apply selection_titled|].
  intros [_ Hrows]%df_empty_false. by apply selection_columns.
Qed.

End ScraperFacts.

(** * The scraper's frames in a run *)

Section ScrapedRuns.
Context {FileData : Type} `{!Csv FileData}.
Implicit Types (env : Env FileData) (w : World FileData).
Implicit Types (pages : Category -> Filters -> Page) (cat : Category).

Lemma scraped_search_of env pages cat filters :
  site env = scraped_site pages ->
  let page := pages cat filters in
  let extracted := match cat with
                   | Tenders => _extract_tender_results page
                   | Projects => _extract_project_results page
                   end in
  let results := search env cat filters in
  results = match get_error page, wait_error page with
            | None, None =>
                mkDataFrame (columns extracted)
                  (filter (fun r : Row => r !! "Status" = f_status filters)
                          (rows extracted))
            | _, _ => pd_DataFrame
            end
  /\ Forall (fun r : Row => is_Some (title r) /\ r !! "Status" = f_status filters)
            (rows results)
  /\ (df_empty results = false ->
      "Title" ∈ columns results /\ "Status" ∈ columns results
      /\ is_Some (f_status filters)).
Proof.
  intros Hsite. unfold search. rewrite Hsite. destruct cat.
  - exact (scraped_search (pages Tenders filters) _ (f_status filters)
             (tender_records_listed _)).
  - exact (scraped_search (pages Projects filters) _ (f_status filters)
             (project_records_listed _)).
Qed.

(** X14. When the site is the scraper reading [pages]: a search returns the
    frame without columns if loading the page or waiting for the results
    fails, and otherwise the extracted frame restricted to the rows whose
    Status cell is the status of the filter; every row returned has a Title
    and that Status; and a frame that is not empty has the columns Title
    and Status and was asked for with a status. *)
Theorem search_scraped env pages cat filters :
  site env = scraped_site pages ->
  let page := pages cat filters in
  let extracted := match cat with
                   | Tenders => _extract_tender_results page
                   | Projects => _extract_project_results page
                   end in
  let results := search env cat filters in
  results = match get_error page, wait_error page with
            | None, None =>
                mkDataFrame (columns extracted)
                  (filter (fun r : Row => r !! "Status" = f_status filters)
                          (rows extracted))
            | _, _ => pd_DataFrame
            end
  /\ Forall (fun r : Row => is_Some (title r) /\ r !! "Status" = f_status filters)
            (rows results)
  /\ (df_empty results = false ->
      "Title" ∈ columns results /\ "Status" ∈ columns results
      /\ is_Some (f_status filters)).
Proof.
  intros Hsite. unfold search. rewrite Hsite.
  destruct cat; cbn [scraped_site].
  - apply (scraped_search (pages Tenders filters)), tender_records_listed.
  - apply (scraped_search (pages Projects filters)), project_records_listed.
Qed.

(** X15. A lineage of the scraper whose filter has no status, or whose
    page fails to load or to show its results, counts as without results:
    nothing is written, listed or compared for it and the world stays as it
    is. *)
Theorem scraped_lineage_without_results env pages cat output_dir timestamp f w :
  site env = scraped_site pages ->
  status f = None
  \/ is_Some (get_error (pages cat (filters_of f)))
  \/ is_Some (wait_error (pages cat (filters_of f))) ->
  lineage_report env cat output_dir timestamp f w
  = (Ok (mkReport cat (filter_name_of f) NoResults), w).
Proof.
  intros Hsite Hcause. apply lineage_report_skipped.
  destruct (scraped_search_of env pages cat (filters_of f) Hsite) as (Hresults & _ & Hfull).
  destruct (df_empty (search env cat (filters_of f))) eqn:Hempty; [done|]. exfalso.
  destruct Hcause as [Hnone|[[e He]|[e He]]].
  - destruct (Hfull eq_refl) as (_ & _ & Hstatus). simpl in Hstatus.
    rewrite Hnone in Hstatus. by apply is_Some_None in Hstatus.
  - rewrite He in Hresults. by rewrite Hresults in Hempty.
  - rewrite He in Hresults. destruct (get_error _); by rewrite Hresults in Hempty.
Qed.

(** X16. A snapshot of the scraper that is not empty has a Title column, so
    against a previous file that reads as a frame with a Title column the
    comparison does not fall into its [except]: it returns the rows whose
    Title is not among the previous Titles, and each of them has a Title. *)
Theorem scraped_snapshot_compared_by_title env pages cat filters
    (files : gmap string FileData) previous_file data previous :
  site env = scraped_site pages ->
  df_empty (search env cat filters) = false ->
  files !! previous_file = Some data ->
  read_csv data = Ok previous ->
  "Title" ∈ columns previous ->
  compare_with_previous files (search env cat filters) previous_file
  = spec_diff (search env cat filters) previous
  /\ Forall (fun r : Row => is_Some (title r))
            (rows (compare_with_previous files (search env cat filters) previous_file)).
Proof.
  intros Hsite Hfull Hfile Hread Hprev.
  destruct (scraped_search_of env pages cat filters Hsite) as (_ & Hrows & Hcols).
  destruct (Hcols Hfull) as (Htitle & _).
  assert (compare_with_previous files (search env cat filters) previous_file
          = spec_diff (search env cat filters) previous) as ->.
  { unfold compare_with_previous.
    by rewrite (compare_body_existing _ _ _ _ _ Hfile Hread Htitle Hprev). }
  split; [done|]. apply Forall_forall. intros r [_ Hin]%list_elem_of_filter.
  rewrite Forall_forall in Hrows. by destruct (Hrows _ Hin).
Qed.

End ScrapedRuns.

(** * The metadata lines and the detail pages *)

Section DetailFacts.
Implicit Types (k key value text : string).

Lemma split_colon_app key value :
  colon_free key = true -> split_colon (key ++ ":" ++ value) = Some (key, value).
Proof.
  induction key as [|c key IH]; [done|]. unfold colon_free. cbn [string_forallb].
  intros [Hc Hkey]%andb_prop. rewrite string_app_cons. cbn [split_colon].
  apply negb_true_iff in Hc. rewrite Hc. by rewrite (IH Hkey).
Qed.

Lemma split_colon_free text : colon_free text = true -> split_colon text = None.
Proof.
  induction text as [|c text IH]; [done|]. unfold colon_free. cbn [string_forallb].
  intros [Hc Htext]%andb_prop. cbn [split_colon].
  apply negb_true_iff in Hc. rewrite Hc. by rewrite (IH Htext).
Qed.

Lemma parse_metadata_snoc (texts : list string) text :
  parse_metadata (texts ++ [text])%list
  = match split_colon (strip text) with
    | Some (key, value) => dict_set (parse_metadata texts) (strip key) (strip value)
    | None => parse_metadata texts
    end.
Proof. unfold parse_metadata. by rewrite fold_left_app. Qed.

(** X17. The loop over the metadata of a tender item: a line whose stripped
    text is "key:value", the key without a colon, sets the stripped key to
    the stripped value and leaves the other keys as the lines before it set
    them; a line without a colon changes nothing. *)
Theorem parse_metadata_line (texts : list string) text :
  (forall key value,
      strip text = key ++ ":" ++ value -> colon_free key = true ->
      forall k, dict_get (parse_metadata (texts ++ [text])%list) k
                = if decide (k = strip key) then Some (strip value)
                  else dict_get (parse_metadata texts) k)
  /\ (colon_free (strip text) = true ->
      parse_metadata (texts ++ [text])%list = parse_metadata texts).
Proof.
  split.
  - intros key value Htext Hkey k. rewrite parse_metadata_snoc, Htext.
    rewrite (split_colon_app _ _ Hkey), dict_get_set.
    destruct (decide (strip key = k)) as [<-|Hne]; [by rewrite decide_True|].
    by rewrite decide_False.
  - intros Hfree. by rewrite parse_metadata_snoc, (split_colon_free _ Hfree).
Qed.

Lemma dict_get_app {V : Type} (d1 d2 : dict V) k :
  dict_get (d1 ++ d2)%list k
  = match dict_get d1 k with
    | Some v => Some v
    | None => dict_get d2 k
    end.
Proof.
  induction d1 as [|[k' v'] d1 IH]; [done|]. cbn [app dict_get].
  by destruct (String.eqb k' k).
Qed.

Lemma details_loop_get (items : list MetadataItem) (details : dict string) k :
  dict_get (fold_left (fun details item =>
                         match (label ← find_element (item_labels item);
                                value ← find_element (item_values item);
                                mret (strip label, strip value)) with
                         | Ok (label, value) => dict_set details label value
                         | Raise _ => details
                         end) items details) k
  = match dict_get (reverse (omap labelled items)) k with
    | Some value => Some value
    | None => dict_get details k
    end.
Proof.
  revert details. induction items as [|item items IH]; intros details; [done|].
  cbn [fold_left omap list_omap]. rewrite IH. unfold labelled at 2.
  destruct (item_labels item) as [|label labels]; simpl; [done|].
  destruct (item_values item) as [|value values]; simpl; [done|].
  rewrite reverse_cons, dict_get_app, dict_get_set. cbn [dict_get].
  destruct (dict_get (reverse (omap labelled items)) k); [done|].
  destruct (String.eqb_spec (strip label) k) as [->|Hne]; [by rewrite decide_True|].
  by rewrite decide_False.
Qed.

Lemma details_loop_keys (items : list MetadataItem) (details : dict string) :
  NoDup details.*1 ->
  NoDup (fold_left (fun details item =>
                      match (label ← find_element (item_labels item);
                             value ← find_element (item_values item);
                             mret (strip label, strip value)) with
                      | Ok (label, value) => dict_set details label value
                      | Raise _ => details
                      end) items details).*1
  /\ head (fold_left (fun details item =>
                        match (label ← find_element (item_labels item);
                               value ← find_element (item_values item);
                               mret (strip label, strip value)) with
                        | Ok (label, value) => dict_set details label value
                        | Raise _ => details
                        end) items details).*1
     = match head details.*1 with
       | Some k => Some k
       | None => head (omap labelled items).*1
       end.
Proof.
  revert details. induction items as [|item items IH]; intros details Hkeys.
  { split; [done|]. simpl. by destruct (head details.*1). }
  cbn [fold_left omap list_omap]. unfold labelled at 1.
  destruct (item_labels item) as [|label labels]; simpl; [by apply IH|].
  destruct (item_values item) as [|value values]; simpl; [by apply IH|].
  destruct (IH (dict_set details (strip label) (strip value))) as [Hnodup Hhead].
  { by apply dict_set_NoDup. }
  split; [done|]. rewrite Hhead, dict_set_keys. unfold add_column.
  case_decide as Hin; [|by destruct details.*1].
  revert Hin. destruct details.*1; [by intros ?%elem_of_nil|done].
Qed.

(** X18. [get_tender_details] and [get_project_details] return the empty
    dict when the page fails to load, the wait fails or there is no
    [h1.page-title]; otherwise a dict whose keys are distinct, Title first,
    where Description is the stripped text of the first [div.description] or
    the empty string whatever the metadata say, and any other key is set by
    the last metadata item with that label that has a value, Title being the
    page title when no item is labelled Title. *)
Theorem get_details_fields (page : DetailPage) :
  let details := get_tender_details page in
  get_project_details page = details
  /\ match detail_get_error page, detail_wait_error page, page_titles page with
     | None, None, page_title :: _ =>
         NoDup details.*1
         /\ head details.*1 = Some "Title"
         /\ forall k,
              dict_get details k
              = if decide (k = "Description")
                then Some (first_text "" (descriptions page))
                else match dict_get (reverse (omap labelled (metadata_items page))) k with
                     | Some value => Some value
                     | None => if decide (k = "Title") then Some (strip page_title)
                               else None
                     end
     | _, _, _ => details = []
     end.
Proof.
  split; [done|]. unfold get_tender_details, get_details_body.
  destruct (detail_get_error page) as [e|]; [done|].
  destruct (detail_wait_error page) as [e|]; [by destruct (page_titles page)|].
  destruct (page_titles page) as [|page_title titles]; [done|].
  cbn [raise_if find_element mbind mret try_except].
  simpl.
  destruct (details_loop_keys (metadata_items page) [("Title", strip page_title)])
    as [Hnodup Hhead].
  { apply NoDup_singleton. }
  split; [by apply dict_set_NoDup|]. split.
  - rewrite dict_set_keys. unfold add_column.
    case_decide; [done|]. revert Hhead. simpl.
    by destruct (_.*1).
  - intros k. rewrite dict_get_set.
    destruct (decide ("Description" = k)) as [<-|Hne].
    { rewrite decide_True by done. by destruct (descriptions page). }
    rewrite decide_False by done. rewrite details_loop_get. cbn [dict_get].
    destruct (dict_get (reverse (omap labelled (metadata_items page))) k); [done|].
    destruct (String.eqb_spec "Title" k) as [<-|Hne']; [by rewrite decide_True|].
    by rewrite decide_False.
Qed.

End DetailFacts.

(** * The process as a whole *)

Section ProcessFacts.
Context {FileData : Type} `{!Csv FileData}.
Implicit Types (env : Env FileData) (w : World FileData) (p : Process FileData).
Implicit Types (events : list (Event FileData)).

Lemma run_scheduled_world env job w :
  world_of (run_scheduled env job w) = (run_job env w).2.
Proof. unfold run_scheduled. by destruct (run_job env w) as [[[]|e] w']. Qed.

Lemma run_job_keeps_files env w path :
  is_Some (fs w !! path) -> is_Some (fs (run_job env w).2 !! path).
Proof.
  intros Hexists.
  apply (keeps_run_job (fun w' => is_Some (fs w' !! path))); [| | |done].
  - intros cat f w' data _ Hw'. cbn [fs set_fs]. rewrite lookup_insert.
    by case_decide.
  - intros subj text files w' Hw'. by rewrite send_keeps_files.
  - by intros n w' Hw'.
Qed.

(** What one iteration of the loop does to the sessions, the files and the
    notifier calls. *)
Lemma loop_step_world p ev :
  sessions (world_of (loop_step p ev)) = sessions (world_of p)
  /\ (forall path, is_Some (fs (world_of p) !! path) ->
                   is_Some (fs (world_of (loop_step p ev)) !! path))
  /\ exists calls,
       notifier_calls (world_of (loop_step p ev))
       = (notifier_calls (world_of p) ++ calls)%list
       /\ length calls <= (if is_due ev then 1 else 0).
Proof.
  destruct p as [job w|e w]; cbn [loop_step world_of].
  2: { split; [done|]. split; [done|]. exists []. rewrite app_nil_r.
       split; [done|]. simpl. lia. }
  destruct ev as [[|] env|c]; cbn [world_of is_due].
  - rewrite run_scheduled_world. split; [apply run_job_sessions|].
    split; [intros path; apply run_job_keeps_files|].
    destruct (run_job_calls env w) as (calls & Hcalls & Hone & _). by exists calls.
  - split; [done|]. split; [done|]. exists []. by rewrite app_nil_r.
  - split; [done|]. split; [done|]. exists []. by rewrite app_nil_r.
Qed.

Lemma loop_world events p :
  sessions (world_of (fold_left loop_step events p)) = sessions (world_of p)
  /\ (forall path, is_Some (fs (world_of p) !! path) ->
                   is_Some (fs (world_of (fold_left loop_step events p)) !! path))
  /\ exists calls,
       notifier_calls (world_of (fold_left loop_step events p))
       = (notifier_calls (world_of p) ++ calls)%list
       /\ length calls <= length (filter (fun ev => is_due ev = true) events).
Proof.
  revert p. induction events as [|ev events IH]; intros p; cbn [fold_left].
  { split; [done|]. split; [done|]. exists []. by rewrite app_nil_r. }
  destruct (IH (loop_step p ev)) as (Hsessions & Hfiles & calls2 & Hcalls2 & Hlen2).
  destruct (loop_step_world p ev) as (Hsessions1 & Hfiles1 & calls1 & Hcalls1 & Hlen1).
  split; [by rewrite Hsessions|]. split; [by intros path ?%Hfiles1%Hfiles|].
  exists (calls1 ++ calls2)%list. rewrite Hcalls2, Hcalls1, <- app_assoc.
  split; [done|]. rewrite length_app, filter_cons.
  destruct (is_due ev); [rewrite decide_True by done|rewrite decide_False by done];
    simpl; lia.
Qed.

(** X19. Over the whole life of the process, whatever the runs meet and
    whether or not an exception ends it: no browser session is left open,
    no file that existed is removed, the notifier calls made before are
    kept, and at most one call is added for the run at startup and one for
    each iteration of the loop that finds the job due. *)
Theorem main_process_bounds env events w :
  sessions (world_of (main env events w)) = sessions w
  /\ (forall path, is_Some (fs w !! path) ->
                   is_Some (fs (world_of (main env events w)) !! path))
  /\ exists calls,
       notifier_calls (world_of (main env events w)) = (notifier_calls w ++ calls)%list
       /\ length calls <= 1 + length (filter (fun ev => is_due ev = true) events).
Proof.
  unfold main.
  destruct (loop_world events (main_start env w)) as (Hsessions & Hfiles & calls2 & Hcalls2 & Hlen2).
  assert (exists w0, world_of (main_start env w) = (run_job env w0).2
                     /\ sessions w0 = sessions w /\ fs w0 = fs w
                     /\ notifier_calls w0 = notifier_calls w) as (w0 & Hstart & Hs & Hf & Hn).
  { unfold main_start. eexists. split; [apply run_scheduled_world|].
    by destruct (config_file w). }
  rewrite Hstart in *.
  destruct (run_job_calls env w0) as (calls1 & Hcalls1 & Hone & _).
  split; [by rewrite Hsessions, run_job_sessions|]. split.
  - intros path Hpath. apply Hfiles, run_job_keeps_files. by rewrite Hf.
  - exists (calls1 ++ calls2)%list. rewrite Hcalls2, Hcalls1, Hn, <- app_assoc.
    split; [done|]. rewrite length_app. lia.
Qed.

End ProcessFacts.

(** * The further properties on the example data *)

Lemma compare_with_previous_title_set_witness :
  compare_with_previous baseline_files (snapshot ["X"; "Y"; "Z"]) baseline_file
  = compare_with_previous reordered_files (snapshot ["X"; "Y"; "Z"]) baseline_file.
Proof.
  apply (compare_with_previous_title_set baseline_files reordered_files
           (snapshot ["X"; "Y"; "Z"]) baseline_file baseline_file
           (Table (snapshot ["X"; "Y"])) (Table (snapshot ["Y"; "X"; "X"]))
           (snapshot ["X"; "Y"]) (snapshot ["Y"; "X"; "X"])).
  - reflexivity.
  - reflexivity.
  - reflexivity.
  - reflexivity.
  - left.
  - left.
  - intros t. change (title <$> rows (snapshot ["X"; "Y"])) with [Some "X"; Some "Y"].
    change (title <$> rows (snapshot ["Y"; "X"; "X"])) with [Some "Y"; Some "X"; Some "X"].
    rewrite !elem_of_cons. tauto.
Defined.

Lemma mem_listdir_plain (files : gmap string MemFile) (dir : string) (listing : list string) :
  mem_listdir files dir = Ok listing ->
  Forall (fun file => slash_free file = true) listing.
Proof.
  intros [= <-]. apply Forall_forall. intros file (path & _ & Hfile)%list_elem_of_omap.
  destruct (startswith path (dir ++ "/")); [|done]. injection Hfile as <-.
  by apply basename_from_is_plain.
Qed.

Lemma lineage_never_compares_with_itself_witness :
  "output/tenders_water_20250102_090000.csv"
  = output_file_of "output" Tenders (filter_for "water" "India") "20250102_090000"
  /\ baseline_file <> "output/tenders_water_20250102_090000.csv".
Proof.
  apply (lineage_never_compares_with_itself (next_day ["X"; "Y"; "Z"]) Tenders "output"
           "20250102_090000" (filter_for "water" "India") baseline_world
           (mkReport Tenders "water"
              (Compared "output/tenders_water_20250102_090000.csv" baseline_file
                 (snapshot ["Z"])))
           (set_fs (<["output/tenders_water_20250102_090000.csv"
                      := Table (snapshot ["X"; "Y"; "Z"])]> baseline_files) baseline_world)
           "output/tenders_water_20250102_090000.csv" baseline_file (snapshot ["Z"])).
  - intros files listing. apply mem_listdir_plain.
  - vm_compute. reflexivity.
  - reflexivity.
Defined.

Lemma setup_failure_ends_process_witness :
  run_job stuck_day baseline_world
  = (Raise (OSError "Read-only file system"), baseline_world)
  /\ (forall job,
        fold_left loop_step (Tick true stuck_day :: quiet_events) (Alive job baseline_world)
        = Crashed (OSError "Read-only file system") baseline_world)
  /\ (exists w0,
        main stuck_day quiet_events baseline_world
        = Crashed (OSError "Read-only file system") w0
        /\ fs w0 = fs baseline_world
        /\ notifier_calls w0 = notifier_calls baseline_world
        /\ outbox w0 = outbox baseline_world
        /\ sessions w0 = sessions baseline_world
        /\ load_config w0 = load_config baseline_world).
Proof.
  apply (setup_failure_ends_process stuck_day quiet_events baseline_world
           (OSError "Read-only file system")).
  left. reflexivity.
Defined.

Lemma main_writes_config_only_if_missing_witness :
  config_file (world_of (main (next_day ["X"; "Y"; "Z"]) quiet_events baseline_world))
  = Parsed (water_config "a@example.org")
  /\ (config_file baseline_world = Unparsable ->
      load_config (world_of (main (next_day ["X"; "Y"; "Z"]) quiet_events baseline_world))
      = default_config).
Proof.
  apply (main_writes_config_only_if_missing (next_day ["X"; "Y"; "Z"]) quiet_events
           baseline_world).
  repeat constructor; intros c; discriminate.
Defined.

Lemma search_scraped_witness :
  search (scraped_day "20250102_090000" sample_pages) Tenders active_filters
  = mkDataFrame (columns (_extract_tender_results sample_page))
      (filter (fun r : Row => r !! "Status" = Some "Active")
              (rows (_extract_tender_results sample_page)))
  /\ Forall (fun r : Row => is_Some (title r) /\ r !! "Status" = Some "Active")
            (rows (search (scraped_day "20250102_090000" sample_pages) Tenders
                     active_filters))
  /\ (df_empty (search (scraped_day "20250102_090000" sample_pages) Tenders
                  active_filters) = false ->
      "Title" ∈ columns (search (scraped_day "20250102_090000" sample_pages) Tenders
                           active_filters)
      /\ "Status" ∈ columns (search (scraped_day "20250102_090000" sample_pages) Tenders
                               active_filters)
      /\ is_Some (Some "Active")).
Proof.
  apply (search_scraped (scraped_day "20250102_090000" sample_pages) sample_pages
           Tenders active_filters).
  reflexivity.
Defined.

Lemma scraped_lineage_without_results_witness :
  lineage_report (scraped_day "20250102_090000" sample_pages) Tenders "output"
    "20250102_090000" unset_status_filter baseline_world
  = (Ok (mkReport Tenders "water" NoResults), baseline_world).
Proof.
  apply (scraped_lineage_without_results (scraped_day "20250102_090000" sample_pages)
           sample_pages Tenders "output" "20250102_090000" unset_status_filter
           baseline_world).
  - reflexivity.
  - left. reflexivity.
Defined.

Lemma scraped_snapshot_compared_by_title_witness :
  compare_with_previous roads_files
    (search (scraped_day "20250102_090000" sample_pages) Tenders active_filters)
    baseline_file
  = spec_diff (search (scraped_day "20250102_090000" sample_pages) Tenders active_filters)
              (snapshot ["Road works"; "Bridge"])
  /\ Forall (fun r : Row => is_Some (title r))
            (rows (compare_with_previous roads_files
                     (search (scraped_day "20250102_090000" sample_pages) Tenders
                        active_filters)
                     baseline_file)).
Proof.
  apply (scraped_snapshot_compared_by_title (scraped_day "20250102_090000" sample_pages)
           sample_pages Tenders active_filters roads_files baseline_file
           (Table (snapshot ["Road works"; "Bridge"])) (snapshot ["Road works"; "Bridge"])).
  - reflexivity.
  - vm_compute. reflexivity.
  - reflexivity.
  - reflexivity.
  - left.
Defined.

(** The search of the example page for active tenders: of the three items
    with a heading link, one has its status replaced by the metadata and one
    has none, so one row is left, with the metadata as further cells. *)
Example search_sample_page :
  search (scraped_day "20250102_090000" sample_pages) Tenders active_filters
  = mkDataFrame ["Title"; "Link"; "Status"; "Country"; "Deadline"]
      [to_row [("Title", Some "Pump station");
               ("Link", Some "https://www.adb.org/projects/tenders/1");
               ("Status", Some "Active"); ("Country", Some "India");
               ("Deadline", Some "2025-03-01 12:00")]].
Proof. vm_compute. reflexivity. Qed.

(** The details of the example page: the metadata item labelled
    Description is overwritten, the item without a value is skipped, the
    second Country replaces the first in its place. *)
Example details_sample_page :
  get_tender_details sample_detail_page
  = [("Title", "Pump station"); ("Country", "Nepal"); ("Description", "")].
Proof. reflexivity. Qed.

Lemma run_job_keeps_other_snapshots_witness :
  fs (run_job (next_day ["X"; "Y"; "Z"]) baseline_world).2
    !! (default "output" (output_dir (load_config baseline_world))
        ++ "/" ++ "tenders_water_20250101_090000.csv")
  = fs baseline_world
      !! (default "output" (output_dir (load_config baseline_world))
          ++ "/" ++ "tenders_water_20250101_090000.csv").
Proof.
  apply (run_job_keeps_other_snapshots (next_day ["X"; "Y"; "Z"]) baseline_world
           "tenders_water_20250101_090000.csv").
  - repeat constructor.
  - reflexivity.
  - reflexivity.
  - reflexivity.
  - apply (bool_decide_unpack _). vm_compute. exact I.
Defined.

(** The baseline snapshot after the run of the next day: the file is the one
    the first run wrote, and the run has added its own. *)
Example baseline_snapshot_stays :
  fs (run_job (next_day ["X"; "Y"; "Z"]) baseline_world).2 !! baseline_file
  = Some (Table (snapshot ["X"; "Y"]))
  /\ fs (run_job (next_day ["X"; "Y"; "Z"]) baseline_world).2
       !! "output/tenders_water_20250102_090000.csv"
     = Some (Table (snapshot ["X"; "Y"; "Z"])).
Proof. split; vm_compute; reflexivity. Qed.
